(** * LoRALinear (torchtune/modules/peft/lora.py): a shallow embedding

    The layer computes [x |-> W0 x + (alpha / r) B A x], optionally rescaled
    by the DoRA magnitude vector.  Scalars are real numbers (the numeric
    semantics the specification fixes), tensors are lists of reals, and the
    Python exceptions the module can raise are values of [exn].

    What the tensor substrate supplies and the module only calls (the NF4
    encoder, the NF4 matrix product, arithmetic on NF4 operands) is an
    interface, [Nf4Substrate]; random draws (parameter initialisation, the
    Bernoulli mask of dropout) are arguments.  Two facts about
    [torchao.dtypes.nf4tensor] shape what the layer does with a compressed
    base weight: [to_nf4] refuses tensors it cannot split into blocks, and
    [NF4Tensor.dequantize] is a static method of two arguments, so the call
    [self.weight.dequantize()] raises [TypeError].

    Dimensions are natural numbers.  The tensor operations are total: on
    operands of conforming shapes they are the operations of the substrate,
    whose shape errors are not modelled; [well_shaped] says that the
    parameters of a layer have the shapes its dimensions declare. *)

From Stdlib Require Import String Reals Lra Lia Bool Arith List.
Import ListNotations.
Local Open Scope R_scope.

(** ** Python results *)

Inductive exn : Type :=
| NotImplementedError (msg : string)
| ZeroDivisionError
| AttributeError (name : string)
| ValueError (msg : string)
| TypeError
| AssertionError.

Inductive result (A : Type) : Type :=
| Ok (a : A)
| Err (e : exn).
Arguments Ok {A} a.
Arguments Err {A} e.

Definition bind {A B : Type} (c : result A) (k : A -> result B) : result B :=
  match c with
  | Ok a => k a
  | Err e => Err e
  end.

Declare Scope py_scope.
Delimit Scope py_scope with py.
Notation "x <- c ;; k" := (bind c (fun x => k))
  (at level 61, c at next level, right associativity) : py_scope.
Local Open Scope py_scope.

(** [alpha / rank] on a Python float and a Python int. *)
Definition py_truediv (a : R) (n : nat) : result R :=
  if Nat.eqb n 0 then Err ZeroDivisionError else Ok (a / INR n).

(** ** Tensors *)

Definition vector := list R.

(** A 2-D parameter, as the list of its rows. *)
Definition matrix := list vector.

(** An activation of shape [(..., n)]: a vector, under any number of batch
    dimensions. *)
#[warnings="-register-all"]
Inductive Tensor : Type :=
| Vec (v : vector)
| Batch (ts : list Tensor).

Fixpoint zip_with {A B C : Type} (f : A -> B -> C) (l : list A) (m : list B) : list C :=
  match l, m with
  | a :: l', b :: m' => f a b :: zip_with f l' m'
  | _, _ => []
  end.

Fixpoint mapi_from {A B : Type} (f : nat -> A -> B) (i : nat) (l : list A) : list B :=
  match l with
  | [] => []
  | a :: l' => f i a :: mapi_from f (S i) l'
  end.

Definition sum (v : vector) : R := fold_right Rplus 0 v.

Definition dot (u v : vector) : R := sum (zip_with Rmult u v).

Definition vadd (u v : vector) : vector := zip_with Rplus u v.
Definition vdiv (u v : vector) : vector := zip_with Rdiv u v.
Definition vscale (s : R) (v : vector) : vector := map (Rmult s) v.

(** [W @ x] for a vector [x]: entry [i] is the product of row [i] with [x]. *)
Definition matvec (W : matrix) (x : vector) : vector :=
  map (fun row => dot row x) W.

Definition ncols (M : matrix) : nat :=
  match M with
  | [] => O
  | row :: _ => length row
  end.

Definition column (j : nat) (M : matrix) : vector :=
  map (fun row => nth j row 0) M.

(** [B @ A]: entry [(i, j)] is the product of row [i] of [B] with column [j]
    of [A]. *)
Definition matmul (B A : matrix) : matrix :=
  map (fun brow => map (fun j => dot brow (column j A)) (seq 0 (ncols A))) B.

Definition madd (M N : matrix) : matrix := zip_with vadd M N.
Definition mscale (s : R) (M : matrix) : matrix := map (vscale s) M.

(** [torch.linalg.norm(M, dim=1)]: the Euclidean norm of every row. *)
Definition linalg_norm_dim1 (M : matrix) : vector :=
  map (fun row => sqrt (dot row row)) M.

(** [torch.clamp(v, min=m)]. *)
Definition clamp_min (v : vector) (m : R) : vector :=
  map (fun a => Rmax a m) v.

(** Apply [f] along the last dimension, under all batch dimensions. *)
Fixpoint tmap (f : vector -> vector) (t : Tensor) : Tensor :=
  match t with
  | Vec v => Vec (f v)
  | Batch ts => Batch (map (tmap f) ts)
  end.

Definition tscale (s : R) (t : Tensor) : Tensor := tmap (vscale s) t.

(** Elementwise binary operation with broadcasting, for the operand shapes
    [forward] produces: equal shapes, a bare vector against a batch, and a
    leading dimension of size 1 in the right operand. *)
Fixpoint broadcast2 (op : vector -> vector -> vector) (a b : Tensor) : Tensor :=
  match a with
  | Vec u => tmap (op u) b
  | Batch l =>
      match b with
      | Vec v => Batch (map (fun x => broadcast2 op x (Vec v)) l)
      | Batch [y] => Batch (map (fun x => broadcast2 op x y) l)
      | Batch m => Batch (zip_with (broadcast2 op) l m)
      end
  end.

Definition tadd : Tensor -> Tensor -> Tensor := broadcast2 vadd.
Definition tmul : Tensor -> Tensor -> Tensor := broadcast2 (zip_with Rmult).

(** [v.view(1, -1)]. *)
Definition view_1_neg1 (v : vector) : Tensor := Batch [Vec v].

(** The 2-D tensor whose rows are those of [M]. *)
Definition of_rows (M : matrix) : Tensor := Batch (map Vec M).

(** The vectors along the last dimension, in order. *)
Fixpoint leaves (t : Tensor) : list vector :=
  match t with
  | Vec v => [v]
  | Batch ts => flat_map leaves ts
  end.

Fixpoint all2 {A B : Type} (P : A -> B -> Prop) (l : list A) (m : list B) : Prop :=
  match l, m with
  | [], [] => True
  | a :: l', b :: m' => P a b /\ all2 P l' m'
  | _, _ => False
  end.

(** Same batch dimensions and same last dimension. *)
Fixpoint same_shape (a b : Tensor) : Prop :=
  match a, b with
  | Vec u, Vec v => length u = length v
  | Batch l, Batch m => all2 same_shape l m
  | _, _ => False
  end.

(** [F.linear(x, W, b)]. *)
Definition F_linear (x : Tensor) (W : matrix) (b : option vector) : Tensor :=
  tmap (fun v => match b with
                 | Some b => vadd (matvec W v) b
                 | None => matvec W v
                 end) x.

(** [nn.Linear]. *)
Record Linear : Type := {
  Linear_weight : matrix;
  Linear_bias : option vector
}.

Definition Linear_call (m : Linear) (x : Tensor) : Tensor :=
  F_linear x (Linear_weight m) (Linear_bias m).

Definition tabulate {A : Type} (n : nat) (f : nat -> A) : list A := map f (seq 0 n).

Definition tabulate2 (r c : nat) (f : nat -> nat -> R) : matrix :=
  tabulate r (fun i => tabulate c (f i)).

(** [nn.Linear(in_features, out_features, bias)]; [w] and [b] are the values
    its default initialisation draws. *)
Definition nn_Linear (w : nat -> nat -> R) (b : nat -> R)
    (in_features out_features : nat) (bias : bool) : Linear :=
  {| Linear_weight := tabulate2 out_features in_features w;
     Linear_bias := if bias then Some (tabulate out_features b) else None |}.

(** [nn.Dropout(p)], with the [training] flag every module carries. *)
Record Dropout : Type := {
  p : R;
  training : bool
}.

(** [nn.Dropout(p)]: the probability is checked when the module is built. *)
Definition nn_Dropout (p : R) : result Dropout :=
  if Rlt_dec p 0 then Err (ValueError "dropout probability has to be between 0 and 1")
  else if Rlt_dec 1 p then Err (ValueError "dropout probability has to be between 0 and 1")
  else Ok {| p := p; training := true |}.

(** The Bernoulli draw of one call: does the element at this index path
    survive? *)
Definition Mask := list nat -> bool.

Fixpoint apply_noise (keep : Mask) (p : R) (t : Tensor) : Tensor :=
  match t with
  | Vec v =>
      Vec (mapi_from (fun j a => a * ((if keep [j] then 1 else 0) / (1 - p))) O v)
  | Batch ts =>
      Batch (mapi_from (fun i t' => apply_noise (fun path => keep (i :: path)) p t') O ts)
  end.

(** Calling the dropout module: the identity in evaluation mode and for
    [p = 0], zeros for [p = 1], otherwise the input times the mask scaled by
    [1 / (1 - p)]. *)
Definition Dropout_call (d : Dropout) (keep : Mask) (x : Tensor) : Tensor :=
  if negb (training d) then x
  else if Req_dec_T (p d) 0 then x
  else if Req_dec_T (p d) 1 then tmap (map (fun a => a * 0)) x
  else apply_noise keep (p d) x.

(** [nn.init.zeros_] and [nn.init.ones_]: same shape, constant entries. *)
Definition zeros_ (M : matrix) : matrix := map (map (fun _ => 0)) M.
Definition ones_ (v : vector) : vector := map (fun _ => 1) v.

(** ** The NF4 substrate

    [torchao.dtypes.nf4tensor] and the dispatch rules registered by
    [torchtune.utils]: called by the layer, not defined by it. *)

Class Nf4Substrate : Type := {
  NF4Tensor : Type;
  (** [to_nf4(t)]: the encoder asserts that it can split [t] into blocks
      and raises otherwise *)
  to_nf4 : Tensor -> result NF4Tensor;
  (** the matrix a 2-D NF4 tensor stands for; the layer never obtains it,
      it serves to state the shape of a compressed weight *)
  nf4_decode : NF4Tensor -> matrix;
  (** [linear_nf4(input=x, weight=w)] *)
  linear_nf4 : Tensor -> NF4Tensor -> Tensor;
  (** [m / n] when [m] or [n] is an NF4 tensor: [inl] is a plain operand,
      [inr] an NF4 one *)
  nf4_truediv : vector + NF4Tensor -> vector + NF4Tensor -> vector;
  (** [nn.init.ones_(q)] on an NF4 tensor *)
  nf4_ones_ : NF4Tensor -> NF4Tensor
}.

(** What the substrate is expected to respect: the NF4 product with the
    encoding of a matrix, when the encoder accepts it, yields a tensor
    shaped like the plain product. *)
Class Nf4Shapes (S : Nf4Substrate) : Prop := {
  linear_nf4_shape :
    forall (x : Tensor) (W : matrix) (w : NF4Tensor),
      to_nf4 (of_rows W) = Ok w ->
      same_shape (linear_nf4 x w) (F_linear x W None)
}.

(** ** The layer *)

Section LoRA.
Context {S : Nf4Substrate}.

(** A 1-D tensor that is either plain or NF4-encoded: the DoRA magnitude
    and the weight norm. *)
Inductive Param : Type :=
| Dense (v : vector)
| Nf4 (q : NF4Tensor).

(** [self.weight]: an NF4 tensor exactly when the base is quantized. *)
Definition weight_repr (quantized : bool) : Type :=
  if quantized then NF4Tensor else matrix.

Record LoRALinear : Type := {
  in_dim : nat;
  rank : nat;
  alpha : R;
  out_dim : nat;
  use_bias : bool;
  use_dora : bool;
  _quantize_base : bool;
  disabled : bool;
  weight : weight_repr _quantize_base;
  bias : option vector;
  dropout : Dropout;
  lora_a : Linear;
  lora_b : Linear;
  (** present exactly when the constructor ran with [use_dora] *)
  lora_m : option Param
}.

Definition set_lora_m (self : LoRALinear) (m : option Param) : LoRALinear :=
  {| in_dim := in_dim self; rank := rank self; alpha := alpha self;
     out_dim := out_dim self; use_bias := use_bias self; use_dora := use_dora self;
     _quantize_base := _quantize_base self; disabled := disabled self;
     weight := weight self; bias := bias self; dropout := dropout self;
     lora_a := lora_a self; lora_b := lora_b self; lora_m := m |}.

Definition set_lora_a (self : LoRALinear) (a : Linear) : LoRALinear :=
  {| in_dim := in_dim self; rank := rank self; alpha := alpha self;
     out_dim := out_dim self; use_bias := use_bias self; use_dora := use_dora self;
     _quantize_base := _quantize_base self; disabled := disabled self;
     weight := weight self; bias := bias self; dropout := dropout self;
     lora_a := a; lora_b := lora_b self; lora_m := lora_m self |}.

Definition set_lora_b (self : LoRALinear) (b : Linear) : LoRALinear :=
  {| in_dim := in_dim self; rank := rank self; alpha := alpha self;
     out_dim := out_dim self; use_bias := use_bias self; use_dora := use_dora self;
     _quantize_base := _quantize_base self; disabled := disabled self;
     weight := weight self; bias := bias self; dropout := dropout self;
     lora_a := lora_a self; lora_b := b; lora_m := lora_m self |}.

Definition set_dropout (self : LoRALinear) (d : Dropout) : LoRALinear :=
  {| in_dim := in_dim self; rank := rank self; alpha := alpha self;
     out_dim := out_dim self; use_bias := use_bias self; use_dora := use_dora self;
     _quantize_base := _quantize_base self; disabled := disabled self;
     weight := weight self; bias := bias self; dropout := d;
     lora_a := lora_a self; lora_b := lora_b self; lora_m := lora_m self |}.

(** [self.disabled = flag], as the caller that switches the adapter does. *)
Definition set_disabled (self : LoRALinear) (flag : bool) : LoRALinear :=
  {| in_dim := in_dim self; rank := rank self; alpha := alpha self;
     out_dim := out_dim self; use_bias := use_bias self; use_dora := use_dora self;
     _quantize_base := _quantize_base self; disabled := flag;
     weight := weight self; bias := bias self; dropout := dropout self;
     lora_a := lora_a self; lora_b := lora_b self; lora_m := lora_m self |}.

(** The base weight together with its representation tag. *)
Definition base_weight (self : LoRALinear) : {q : bool & weight_repr q} :=
  existT _ (_quantize_base self) (weight self).

(** [self.lora_m]; the attribute is missing on a layer built without DoRA. *)
Definition get_lora_m (self : LoRALinear) : result Param :=
  match lora_m self with
  | Some m => Ok m
  | None => Err (AttributeError "lora_m")
  end.

(** [def adapter_params(self)] *)
Definition adapter_params (self : LoRALinear) : list string :=
  let adapter_params := ["lora_a.weight"; "lora_b.weight"]%string in
  if use_dora self then adapter_params ++ ["lora_m"%string] else adapter_params.

(** The base weight as a matrix: the weight itself when it is plain, the
    matrix it stands for when it is compressed. *)
Definition full_weight (self : LoRALinear) : matrix :=
  (if _quantize_base self as q return weight_repr q -> matrix
   then fun w => nf4_decode w
   else fun w => w) (weight self).

(** [w.dequantize()] on an NF4 tensor: [NF4Tensor.dequantize(value, nf4)] is
    a static method of two arguments, and the call passes none. *)
Definition NF4Tensor_dequantize (w : NF4Tensor) : result matrix := Err TypeError.

(** [self.weight.dequantize() if self._quantize_base else self.weight] *)
Definition dequantized_weight (self : LoRALinear) : result matrix :=
  (if _quantize_base self as q return weight_repr q -> result matrix
   then fun w => NF4Tensor_dequantize w
   else fun w => Ok w) (weight self).

(** [def _dora_weight_norm(self)] *)
Definition _dora_weight_norm (self : LoRALinear) : result Param :=
  weight <- dequantized_weight self ;;
  scaling <- py_truediv (alpha self) (rank self) ;;
  let result :=
    madd weight
      (mscale scaling (matmul (Linear_weight (lora_b self)) (Linear_weight (lora_a self)))) in
  let norm := linalg_norm_dim1 result in
  let norm := clamp_min norm 1e-6 in
  if _quantize_base self then
    q <- to_nf4 (Vec norm) ;;
    Ok (Nf4 q)
  else Ok (Dense norm).

(** [def init_dora(self)] *)
Definition init_dora (self : LoRALinear) : result LoRALinear :=
  weight_norm <- _dora_weight_norm self ;;
  _ <- get_lora_m self ;;
  Ok (set_lora_m self (Some weight_norm)).

(** [self.lora_m / weight_norm] *)
Definition truediv (m n : Param) : vector :=
  match m, n with
  | Dense u, Dense v => vdiv u v
  | Dense u, Nf4 q => nf4_truediv (inl u) (inr q)
  | Nf4 r, Dense v => nf4_truediv (inr r) (inl v)
  | Nf4 r, Nf4 q => nf4_truediv (inr r) (inr q)
  end.

(** Lines 162-165 of [forward]: the base affine transform. *)
Definition base_output (self : LoRALinear) (x : Tensor) : Tensor :=
  (if _quantize_base self as q return weight_repr q -> Tensor
   then fun w => linear_nf4 x w
   else fun w => F_linear x w (bias self)) (weight self).

(** Lines 168-169 of [forward]: the low-rank perturbation. *)
Definition lora_output (self : LoRALinear) (keep : Mask) (x : Tensor) : result Tensor :=
  let lora_out := Linear_call (lora_a self) (Dropout_call (dropout self) keep x) in
  scaling <- py_truediv (alpha self) (rank self) ;;
  Ok (tscale scaling (Linear_call (lora_b self) lora_out)).

(** [def forward(self, x)]; [keep] is the dropout draw of this call. *)
Definition forward (self : LoRALinear) (keep : Mask) (x : Tensor) : result Tensor :=
  let out := base_output self x in
  if disabled self then Ok out
  else
    lora_out <- lora_output self keep x ;;
    if use_dora self then
      weight_norm <- _dora_weight_norm self ;;
      lora_m <- get_lora_m self ;;
      let mag_norm_scale := view_1_neg1 (truediv lora_m weight_norm) in
      Ok (tmul (tadd out lora_out) mag_norm_scale)
    else Ok (tadd out lora_out).

(** *** Construction *)

(** The values drawn by the random initialisers during construction. *)
Record Draws : Type := {
  draw_weight : nat -> nat -> R;
  draw_bias : nat -> R;
  draw_lora_a_default : nat -> nat -> R;
  draw_lora_b_default : nat -> nat -> R;
  draw_lora_a : nat -> nat -> R
}.

(** [nn.init.kaiming_uniform_(M, a=math.sqrt(5))] with draw [d]. *)
Definition kaiming_uniform_ (d : nat -> nat -> R) (M : matrix) : matrix :=
  mapi_from (fun i row => mapi_from (fun j _ => d i j) O row) O M.

(** [def _lora_a_init_params(x)] *)
Definition _lora_a_init_params (d : nat -> nat -> R) (x : Linear) : Linear :=
  {| Linear_weight := kaiming_uniform_ d (Linear_weight x);
     Linear_bias := Linear_bias x |}.

(** [def _lora_b_init_params(x)] *)
Definition _lora_b_init_params (x : Linear) : Linear :=
  {| Linear_weight := zeros_ (Linear_weight x);
     Linear_bias := Linear_bias x |}.

(** [def _dora_m_init_params(x)] *)
Definition _dora_m_init_params (x : Param) : Param :=
  match x with
  | Dense v => Dense (ones_ v)
  | Nf4 q => Nf4 (nf4_ones_ q)
  end.

(** [def initialize_parameters(self)] *)
Definition initialize_parameters (rng : Draws) (self : LoRALinear) : result LoRALinear :=
  let self := set_lora_a self (_lora_a_init_params (draw_lora_a rng) (lora_a self)) in
  let self := set_lora_b self (_lora_b_init_params (lora_b self)) in
  if use_dora self then
    m <- get_lora_m self ;;
    Ok (set_lora_m self (Some (_dora_m_init_params m)))
  else Ok self.

(** [def _create_weight_and_bias(self)], on the attributes it reads. *)
Definition _create_weight_and_bias (rng : Draws) (in_dim out_dim : nat)
    (use_bias quantize_base : bool) : result (weight_repr quantize_base * option vector) :=
  let linear := nn_Linear (draw_weight rng) (draw_bias rng) in_dim out_dim use_bias in
  weight <- (if quantize_base as q return result (weight_repr q)
             then to_nf4 (of_rows (Linear_weight linear))
             else Ok (Linear_weight linear)) ;;
  let bias : option vector := None in
  if use_bias then
    if quantize_base then
      Err (NotImplementedError "Quantized LoRALinear does not support bias at the moment.")
    else Ok (weight, Linear_bias linear)
  else Ok (weight, bias).

(** The names under which the module under construction has registered
    parameters so far, in registration order. *)
Definition Registry := list string.

(** A constructor step: it may register parameters and may raise; the
    registry is what it is when the step returns or raises. *)
Definition Ctor (A : Type) : Type := Registry -> Registry * result A.

Definition ctor_bind {A B : Type} (c : Ctor A) (k : A -> Ctor B) : Ctor B :=
  fun reg =>
    match c reg with
    | (reg', Ok a) => k a reg'
    | (reg', Err e) => (reg', Err e)
    end.

Definition lift {A : Type} (r : result A) : Ctor A := fun reg => (reg, r).

Definition register (name : string) : Ctor unit := fun reg => (reg ++ [name], Ok tt).

Notation "x <-- c ;; k" := (ctor_bind c (fun x => k))
  (at level 61, c at next level, right associativity).
Notation "c ;;; k" := (ctor_bind c (fun _ => k))
  (at level 61, right associativity).

(** [def __init__(self, in_dim, out_dim, rank, alpha, dropout, use_dora,
    use_bias, quantize_base)], started on the registry [super().__init__()]
    leaves. *)
Definition __init__ (rng : Draws) (in_dim out_dim rank : nat) (alpha dropout : R)
    (use_dora use_bias quantize_base : bool) : Ctor LoRALinear :=
  wb <-- lift (_create_weight_and_bias rng in_dim out_dim use_bias quantize_base) ;;
  let disabled := false in
  register "weight" ;;;
  register "bias" ;;;
  dropout <-- lift (nn_Dropout dropout) ;;
  let lora_a := nn_Linear (draw_lora_a_default rng) (fun _ => 0) in_dim rank false in
  register "lora_a.weight" ;;;
  let lora_b := nn_Linear (draw_lora_b_default rng) (fun _ => 0) rank out_dim false in
  register "lora_b.weight" ;;;
  lora_m <-- (if use_dora
              then register "lora_m" ;;; lift (Ok (Some (Dense (repeat 0 out_dim))))
              else lift (Ok None)) ;;
  lift (initialize_parameters rng
          {| in_dim := in_dim; rank := rank; alpha := alpha; out_dim := out_dim;
             use_bias := use_bias; use_dora := use_dora;
             _quantize_base := quantize_base; disabled := disabled;
             weight := fst wb; bias := snd wb; dropout := dropout;
             lora_a := lora_a; lora_b := lora_b; lora_m := lora_m |}).

(** [LoRALinear(in_dim, out_dim, rank, alpha, ...)]: the outcome and the
    parameters registered when the call ends. *)
Definition construct (rng : Draws) (in_dim out_dim rank : nat) (alpha dropout : R)
    (use_dora use_bias quantize_base : bool) : Registry * result LoRALinear :=
  __init__ rng in_dim out_dim rank alpha dropout use_dora use_bias quantize_base [].

End LoRA.

(** ** Shapes *)

Definition shaped (r c : nat) (M : matrix) : Prop :=
  length M = r /\ Forall (fun row => length row = c) M.

Definition all_zero (M : matrix) : Prop :=
  Forall (Forall (fun a => a = 0)) M.

(** The zero tensor of shape [(..., n)], batched like [x]. *)
Definition tzeros (n : nat) (x : Tensor) : Tensor := tmap (fun _ => repeat 0 n) x.

(** The parameters have the shapes the declared dimensions call for: the
    base weight is [out_dim x in_dim], factor A is [rank x in_dim], factor B
    is [out_dim x rank]. *)
Definition well_shaped {S : Nf4Substrate} (self : LoRALinear) : Prop :=
  shaped (out_dim self) (in_dim self) (full_weight self) /\
  shaped (rank self) (in_dim self) (Linear_weight (lora_a self)) /\
  shaped (out_dim self) (rank self) (Linear_weight (lora_b self)).

(** ** The combined-weight norm, in the words of the specification *)

Definition entry (M : matrix) (i j : nat) : R := nth j (nth i M []) 0.

Definition big_sum (n : nat) (f : nat -> R) : R := sum (map f (seq 0 n)).

(** Entry [(i, j)] of [R = W + (alpha / rank) * (B @ A)]. *)
Definition spec_combined (W A B : matrix) (alpha : R) (rank : nat) (i j : nat) : R :=
  entry W i j + (alpha / INR rank) * big_sum rank (fun k => entry B i k * entry A k j).

(** Per output row, the Euclidean norm across the input dimension, clamped
    to a minimum of [1e-6]: a vector of length [out_dim]. *)
Definition spec_weight_norm (in_dim out_dim rank : nat) (alpha : R) (W A B : matrix) : vector :=
  tabulate out_dim (fun i =>
    Rmax (sqrt (big_sum in_dim (fun j => Rsqr (spec_combined W A B alpha rank i j)))) 1e-6).

(** ** A concrete substrate, to evaluate the definitions on concrete layers *)

(** The number of elements of a tensor. *)
Definition numel (t : Tensor) : nat := length (concat (leaves t)).

(** An NF4 tensor is kept as the tensor it encodes; the encoder refuses, as
    [to_nf4] does, a tensor whose number of elements is not a multiple of
    the block size. *)
#[local] Instance blockwise : Nf4Substrate := {|
  NF4Tensor := Tensor;
  to_nf4 := fun t => if Nat.eqb (Nat.modulo (numel t) 64) 0 then Ok t else Err AssertionError;
  nf4_decode := leaves;
  linear_nf4 := fun x w => F_linear x (leaves w) None;
  nf4_truediv := fun m n =>
    vdiv (match m with inl v => v | inr q => concat (leaves q) end)
         (match n with inl v => v | inr q => concat (leaves q) end);
  nf4_ones_ := tmap ones_
|}.

Definition no_dropout : Dropout := {| p := 0; training := true |}.

Definition no_bias (W : matrix) : Linear := {| Linear_weight := W; Linear_bias := None |}.

(** The layer of the end-to-end example: [in_dim=4], [out_dim=2], [rank=1],
    [alpha=1.0], no dropout, DoRA, bias and compression off. *)
Definition example_layer {S : Nf4Substrate} (B : matrix) : LoRALinear :=
  {| in_dim := 4; rank := 1; alpha := 1; out_dim := 2;
     use_bias := false; use_dora := false; _quantize_base := false;
     disabled := false;
     weight := [[1; 0; 0; 0]; [0; 1; 0; 0]] : weight_repr false;
     bias := None; dropout := no_dropout;
     lora_a := no_bias [[1; 0; 0; 0]]; lora_b := no_bias B; lora_m := None |}.

(** The same layer with DoRA on, factor B set to [[1],[1]] and the magnitude
    vector as construction leaves it. *)
Definition dora_example_layer : LoRALinear :=
  {| in_dim := 4; rank := 1; alpha := 1; out_dim := 2;
     use_bias := false; use_dora := true; _quantize_base := false;
     disabled := false;
     weight := [[1; 0; 0; 0]; [0; 1; 0; 0]] : weight_repr false;
     bias := None; dropout := no_dropout;
     lora_a := no_bias [[1; 0; 0; 0]]; lora_b := no_bias [[1]; [1]];
     lora_m := Some (Dense [1; 1]) |}.

(** A 1-by-1 DoRA layer with base weight [w], factor A [a], factor B zero
    and magnitude [m]. *)
Definition tiny_dora_layer (w a m : R) : LoRALinear :=
  {| in_dim := 1; rank := 1; alpha := 1; out_dim := 1;
     use_bias := false; use_dora := true; _quantize_base := false;
     disabled := false;
     weight := [[w]] : weight_repr false;
     bias := None; dropout := no_dropout;
     lora_a := no_bias [[a]]; lora_b := no_bias [[0]]; lora_m := Some (Dense [m]) |}.

(** Draws that give every entry of the base weight, the bias and factor A
    the value [1/2]. *)
Definition half_draws : Draws :=
  {| draw_weight := fun _ _ => 1 / 2;
     draw_bias := fun _ => 1 / 2;
     draw_lora_a_default := fun _ _ => 1 / 2;
     draw_lora_b_default := fun _ _ => 1 / 2;
     draw_lora_a := fun _ _ => 1 / 2 |}.

Definition keep_all : Mask := fun _ => true.

(** The layer [LoRALinear(16384, 1, rank=1, alpha=1.0, use_dora=dora,
    quantize_base=True)] builds from [half_draws]: its base weight is the
    encoding of a 1 x 16384 matrix. *)
Definition quantized_layer (dora : bool) : LoRALinear :=
  {| in_dim := 128 * 128; rank := 1; alpha := 1; out_dim := 1;
     use_bias := false; use_dora := dora; _quantize_base := true;
     disabled := false;
     weight := of_rows (tabulate2 1 (128 * 128) (draw_weight half_draws)) : weight_repr true;
     bias := None; dropout := no_dropout;
     lora_a := _lora_a_init_params (draw_lora_a half_draws)
                 (nn_Linear (draw_lora_a_default half_draws) (fun _ => 0) (128 * 128) 1 false);
     lora_b := _lora_b_init_params
                 (nn_Linear (draw_lora_b_default half_draws) (fun _ => 0) 1 1 false);
     lora_m := if dora then Some (Dense [1]) else None |}.

(** ** The layer as a whole *)

(** [W + (alpha / rank) * (B @ A)]: the matrix [_dora_weight_norm] takes the
    row norms of. *)
Definition merged_weight {S : Nf4Substrate} (self : LoRALinear) : matrix :=
  madd (full_weight self)
    (mscale (alpha self / INR (rank self))
       (matmul (Linear_weight (lora_b self)) (Linear_weight (lora_a self)))).

(** Shapes as declared, factors without bias (they are built with
    [bias=False]), and a bias, if any, of length [out_dim]. *)
Definition well_formed {S : Nf4Substrate} (self : LoRALinear) : Prop :=
  well_shaped self /\
  Linear_bias (lora_a self) = None /\
  Linear_bias (lora_b self) = None /\
  match bias self with
  | Some b => length b = out_dim self
  | None => True
  end.

(** The dropout module passes its input through: evaluation mode, or
    probability zero. *)
Definition dropout_inactive (d : Dropout) : Prop :=
  training d = false \/ p d = 0.

(** Every vector along the last dimension has length [n]. *)
Definition last_dim (n : nat) (x : Tensor) : Prop :=
  Forall (fun v => length v = n) (leaves x).

(** The parameter names a successful construction registers, in order. *)
Definition registered_names (dora : bool) : Registry :=
  (["weight"; "bias"; "lora_a.weight"; "lora_b.weight"]%string
   ++ (if dora then ["lora_m"%string] else []))%list.

(** A layer of rank zero, as [LoRALinear(4, 2, rank=0, alpha=1.0)] builds
    it, with the base weight of the example. *)
Definition rank_zero_layer : LoRALinear :=
  {| in_dim := 4; rank := 0; alpha := 1; out_dim := 2;
     use_bias := false; use_dora := false; _quantize_base := false;
     disabled := false;
     weight := [[1; 0; 0; 0]; [0; 1; 0; 0]] : weight_repr false;
     bias := None; dropout := no_dropout;
     lora_a := no_bias []; lora_b := no_bias [[]; []]; lora_m := None |}.

(** * Facts about the tensor operations *)

Lemma Tensor_nested_ind (P : Tensor -> Prop) :
  (forall v, P (Vec v)) ->
  (forall ts, Forall P ts -> P (Batch ts)) ->
  forall t, P t.
Proof.
  intros HV HB. fix IH 1. intros [v | ts].
  - apply HV.
  - apply HB. induction ts as [| t ts IHts]; constructor.
    + apply IH.
    + exact IHts.
Qed.

Lemma zip_with_length {A B C : Type} (f : A -> B -> C) (l : list A) (m : list B) :
  length (zip_with f l m) = Nat.min (length l) (length m).
Proof.
  revert m. induction l as [| a l IH]; intros [| b m]; simpl; auto.
Qed.

Lemma nth_zip_with {A B C : Type} (f : A -> B -> C) (l : list A) (m : list B)
    (i : nat) (a : A) (b : B) (c : C) :
  (i < length l)%nat -> (i < length m)%nat ->
  nth i (zip_with f l m) c = f (nth i l a) (nth i m b).
Proof.
  revert m i. induction l as [| x l IH]; intros [| y m] [| i]; simpl; intros; try lia; auto.
  apply IH; lia.
Qed.

Lemma vadd_zero_r (u z : vector) :
  length u = length z -> Forall (fun a => a = 0) z -> vadd u z = u.
Proof.
  revert z. induction u as [| a u IH]; intros [| b z]; simpl; intros Hl Hz; try discriminate; auto.
  inversion Hz; subst. unfold vadd in *. simpl. f_equal.
  - lra.
  - apply IH; auto.
Qed.

Lemma repeat_zero_Forall (n : nat) : Forall (fun a => a = 0) (repeat 0 n).
Proof. induction n; simpl; constructor; auto. Qed.

Lemma dot_zero_l (u v : vector) : Forall (fun a => a = 0) u -> dot u v = 0.
Proof.
  revert v. unfold dot. induction u as [| a u IH]; intros [| b v] Hu; simpl; auto.
  inversion Hu; subst. rewrite IH by assumption. lra.
Qed.

Lemma matvec_all_zero (M : matrix) (x : vector) :
  all_zero M -> matvec M x = repeat 0 (length M).
Proof.
  unfold all_zero, matvec. induction 1 as [| row M Hrow HM IH]; simpl; auto.
  rewrite dot_zero_l by assumption. f_equal. exact IH.
Qed.

Lemma zeros_all_zero (M : matrix) : all_zero (zeros_ M).
Proof.
  unfold all_zero, zeros_. induction M as [| row M IH]; simpl; constructor; auto.
  induction row; simpl; constructor; auto.
Qed.

Lemma zeros_length (M : matrix) : length (zeros_ M) = length M.
Proof. unfold zeros_. apply length_map. Qed.

Lemma vscale_zeros (s : R) (n : nat) : vscale s (repeat 0 n) = repeat 0 n.
Proof.
  unfold vscale. induction n; simpl; auto. f_equal; auto. lra.
Qed.

Lemma tmap_tmap (f g : vector -> vector) (t : Tensor) :
  tmap f (tmap g t) = tmap (fun v => f (g v)) t.
Proof.
  induction t as [v | ts IH] using Tensor_nested_ind; simpl; auto.
  f_equal. rewrite map_map. induction IH; simpl; auto. congruence.
Qed.

Lemma tmap_ext (f g : vector -> vector) (t : Tensor) :
  (forall v, f v = g v) -> tmap f t = tmap g t.
Proof.
  intros Hfg. induction t as [v | ts IH] using Tensor_nested_ind; simpl.
  - now rewrite Hfg.
  - f_equal. induction IH; simpl; auto. congruence.
Qed.

Lemma tzeros_tmap (n : nat) (f : vector -> vector) (t : Tensor) :
  tzeros n (tmap f t) = tzeros n t.
Proof. unfold tzeros. now rewrite tmap_tmap. Qed.

Lemma mapi_from_tzeros (n : nat) (f : nat -> Tensor -> Tensor) (ts : list Tensor) :
  Forall (fun t => forall i, tzeros n (f i t) = tzeros n t) ts ->
  forall i, map (tzeros n) (mapi_from f i ts) = map (tzeros n) ts.
Proof.
  induction 1 as [| t ts Ht Hts IH]; intros i; simpl; auto.
  now rewrite Ht, IH.
Qed.

Lemma tzeros_apply_noise (n : nat) (q : R) (t : Tensor) :
  forall keep, tzeros n (apply_noise keep q t) = tzeros n t.
Proof.
  induction t as [v | ts IH] using Tensor_nested_ind; intros keep; simpl; auto.
  unfold tzeros. simpl. f_equal.
  apply (mapi_from_tzeros n (fun i t' => apply_noise (fun path => keep (i :: path)) q t')).
  eapply Forall_impl; [| exact IH]. intros t Ht i. apply Ht.
Qed.

Lemma tzeros_dropout (n : nat) (d : Dropout) (keep : Mask) (x : Tensor) :
  tzeros n (Dropout_call d keep x) = tzeros n x.
Proof.
  unfold Dropout_call.
  destruct (negb (training d)); auto.
  destruct (Req_dec_T (p d) 0); auto.
  destruct (Req_dec_T (p d) 1).
  - apply tzeros_tmap.
  - apply tzeros_apply_noise.
Qed.

Lemma Linear_call_zero (m : Linear) (x : Tensor) :
  all_zero (Linear_weight m) -> Linear_bias m = None ->
  Linear_call m x = tzeros (length (Linear_weight m)) x.
Proof.
  intros HW Hb. unfold Linear_call, F_linear, tzeros. rewrite Hb.
  apply tmap_ext. intros v. now apply matvec_all_zero.
Qed.

Lemma tscale_tzeros (s : R) (n : nat) (x : Tensor) :
  tscale s (tzeros n x) = tzeros n x.
Proof.
  unfold tscale, tzeros. rewrite tmap_tmap. apply tmap_ext.
  intros _. apply vscale_zeros.
Qed.

Lemma leaves_tzeros_zero (n : nat) (x : Tensor) :
  Forall (Forall (fun a => a = 0)) (leaves (tzeros n x)).
Proof.
  unfold tzeros.
  induction x as [v | ts IH] using Tensor_nested_ind; simpl.
  - constructor; [apply repeat_zero_Forall | constructor].
  - induction IH as [| t ts Ht Hts IHts]; simpl; [constructor |].
    apply Forall_app. split; assumption.
Qed.

Lemma tadd_zero_r (t : Tensor) :
  forall z, same_shape t z ->
            Forall (Forall (fun a => a = 0)) (leaves z) ->
            tadd t z = t.
Proof.
  unfold tadd.
  induction t as [u | l IH] using Tensor_nested_ind; intros [v | m] Hs Hz; simpl in Hs; try contradiction.
  - simpl in *. inversion Hz; subst. f_equal. now apply vadd_zero_r.
  - assert (Hzip : zip_with (broadcast2 vadd) l m = l).
    { simpl in Hz. revert m Hs Hz.
      induction IH as [| x l Hx Hl IHl]; intros [| y m] Hs Hz; try contradiction; auto.
      simpl in Hz. apply Forall_app in Hz. destruct Hz as [Hy Hm]. destruct Hs as [Hxy Hlm].
      simpl. f_equal.
      - now apply Hx.
      - now apply IHl. }
    destruct m as [| y [| y' m']].
    + simpl. now rewrite <- Hzip at 2.
    + destruct l as [| x [| x' l']]; try (simpl in Hs; tauto).
      simpl. simpl in Hzip. congruence.
    + simpl. f_equal. exact Hzip.
Qed.

Lemma same_shape_tmap (f g : vector -> vector) (x : Tensor) :
  (forall v, length (f v) = length (g v)) ->
  same_shape (tmap f x) (tmap g x).
Proof.
  intros Hfg. induction x as [v | ts IH] using Tensor_nested_ind; simpl; auto.
  induction IH; simpl; auto.
Qed.

Lemma same_shape_trans (a : Tensor) :
  forall b c, same_shape a b -> same_shape b c -> same_shape a c.
Proof.
  induction a as [u | l IH] using Tensor_nested_ind;
    intros [v | m] [w | k] Hab Hbc; simpl in *; try contradiction; try congruence.
  revert m k Hab Hbc.
  induction IH as [| x l Hx Hl IHl]; intros [| y m] [| z k] Hab Hbc;
    simpl in *; try contradiction; auto.
  destruct Hab, Hbc. split; eauto.
Qed.

Lemma matvec_length (W : matrix) (x : vector) : length (matvec W x) = length W.
Proof. unfold matvec. apply length_map. Qed.

Lemma tabulate_length {A : Type} (n : nat) (f : nat -> A) : length (tabulate n f) = n.
Proof. unfold tabulate. now rewrite length_map, length_seq. Qed.

(** Adding a zero perturbation batched like the input leaves a tensor of the
    matching shape unchanged. *)
Lemma tadd_tzeros (out : Tensor) (n : nat) (x : Tensor) :
  same_shape out (tzeros n x) -> tadd out (tzeros n x) = out.
Proof.
  intros Hs. apply tadd_zero_r; [exact Hs | apply leaves_tzeros_zero].
Qed.

Lemma leaves_broadcast2_vec (op : vector -> vector -> vector) (s : vector) (t : Tensor) :
  leaves (broadcast2 op t (Vec s)) = map (fun u => op u s) (leaves t).
Proof.
  induction t as [u | l IH] using Tensor_nested_ind; simpl; auto.
  induction IH as [| x l Hx Hl IHl]; simpl; auto.
  now rewrite map_app, Hx, IHl.
Qed.

(** Multiplying by a [(1, n)] tensor multiplies every vector along the last
    dimension by the one row, whatever the batch dimensions. *)
Lemma leaves_tmul_row (t : Tensor) (s : vector) :
  leaves (tmul t (view_1_neg1 s)) = map (fun u => zip_with Rmult u s) (leaves t).
Proof.
  unfold tmul, view_1_neg1. destruct t as [u | l]; simpl; auto.
  induction l as [| x l IHl]; simpl; auto.
  now rewrite map_app, leaves_broadcast2_vec, IHl.
Qed.

Lemma clamp_min_floor (v : vector) (m : R) : Forall (fun a => m <= a) (clamp_min v m).
Proof.
  unfold clamp_min. induction v as [| a v IH]; simpl; constructor; auto.
  apply Rmax_r.
Qed.

Lemma clamp_min_length (v : vector) (m : R) : length (clamp_min v m) = length v.
Proof. unfold clamp_min. apply length_map. Qed.

Lemma py_truediv_pos (a : R) (n : nat) : n <> O -> py_truediv a n = Ok (a / INR n).
Proof.
  intros Hn. unfold py_truediv. destruct (Nat.eqb_spec n 0); [contradiction | reflexivity].
Qed.

(** * The layer *)

Section LoRAFacts.
Context {S : Nf4Substrate}.

Lemma dequantized_weight_plain (self : LoRALinear) :
  _quantize_base self = false -> dequantized_weight self = Ok (full_weight self).
Proof.
  intros Hq. unfold dequantized_weight, full_weight.
  destruct self; simpl in *. subst. reflexivity.
Qed.

Lemma dequantized_weight_quantized (self : LoRALinear) :
  _quantize_base self = true -> dequantized_weight self = Err TypeError.
Proof.
  intros Hq. unfold dequantized_weight, NF4Tensor_dequantize.
  destruct self; simpl in *. subst. reflexivity.
Qed.

(** What [_dora_weight_norm] returns on a plain base weight when the rank is
    not zero. *)
Lemma dora_weight_norm_plain (self : LoRALinear) :
  rank self <> O -> _quantize_base self = false ->
  _dora_weight_norm self
  = Ok (Dense (clamp_min (linalg_norm_dim1 (merged_weight self)) 1e-6)).
Proof.
  intros Hr Hq. unfold _dora_weight_norm.
  rewrite (dequantized_weight_plain self Hq), Hq. simpl.
  now rewrite py_truediv_pos.
Qed.

(** On a compressed base weight [_dora_weight_norm] raises at its first
    statement, whatever the rank and the factors are. *)
Lemma dora_weight_norm_quantized (self : LoRALinear) :
  _quantize_base self = true -> _dora_weight_norm self = Err TypeError.
Proof.
  intros Hq. unfold _dora_weight_norm.
  now rewrite (dequantized_weight_quantized self Hq).
Qed.

Lemma dora_weight_norm_inv (self : LoRALinear) (n : Param) :
  _dora_weight_norm self = Ok n ->
  _quantize_base self = false /\ rank self <> O /\
  n = Dense (clamp_min (linalg_norm_dim1 (merged_weight self)) 1e-6).
Proof.
  intros H. destruct (_quantize_base self) eqn:Hq.
  - rewrite (dora_weight_norm_quantized self Hq) in H. discriminate.
  - destruct (Nat.eq_dec (rank self) O) as [Hr | Hr].
    + unfold _dora_weight_norm, py_truediv in H.
      rewrite (dequantized_weight_plain self Hq), Hr in H. discriminate.
    + rewrite (dora_weight_norm_plain self Hr Hq) in H. injection H as <-. auto.
Qed.

Lemma init_dora_inv (self self' : LoRALinear) :
  init_dora self = Ok self' -> exists n, self' = set_lora_m self (Some n).
Proof.
  unfold init_dora. destruct (_dora_weight_norm self) as [n | e]; simpl; [| discriminate].
  destruct (get_lora_m self); simpl; [| discriminate].
  intros H. injection H as <-. now exists n.
Qed.

(** Without the disabled flag, a rank of zero makes [forward] raise. *)
Lemma forward_rank_zero (self : LoRALinear) (keep : Mask) (x : Tensor) :
  rank self = O -> disabled self = false ->
  forward self keep x = Err ZeroDivisionError.
Proof.
  intros Hr Hdis. unfold forward, lora_output, py_truediv. now rewrite Hdis, Hr.
Qed.

(** [init_dora] on a layer built without DoRA raises. *)
Lemma init_dora_without_magnitude (self : LoRALinear) :
  rank self <> O -> _quantize_base self = false -> lora_m self = None ->
  init_dora self = Err (AttributeError "lora_m").
Proof.
  intros Hr Hq Hm. unfold init_dora, get_lora_m.
  now rewrite (dora_weight_norm_plain self Hr Hq), Hm.
Qed.

(** C4. With the disabled flag set, [forward] returns the base affine
    transform of the input, and the result does not depend on factor A,
    factor B, the dropout module (its probability and mode), the dropout
    draw or the magnitude vector: replacing any of them leaves the output
    the same. *)
Theorem forward_disabled_is_base (self : LoRALinear) (x : Tensor) :
  disabled self = true ->
  (forall keep, forward self keep x = Ok (base_output self x)) /\
  (forall (a b : Linear) (d : Dropout) (m : option Param) (keep keep' : Mask),
      forward (set_lora_a (set_lora_b (set_dropout (set_lora_m self m) d) b) a) keep' x
      = forward self keep x).
Proof.
  intros Hdis. split.
  - intros keep. unfold forward. now rewrite Hdis.
  - intros a b d m keep keep'. unfold forward. simpl. now rewrite Hdis.
Qed.

(** C5. Constructing the layer with both [quantize_base] and [use_bias] set
    fails with no parameter registered, whatever the other arguments.  The
    base weight is encoded before the two flags are compared: the error is
    [NotImplementedError] when the encoder accepts the new weight, and the
    error of the encoder when it refuses it. *)
Theorem construct_quantized_with_bias_fails (rng : Draws) (d_in d_out r : nat)
    (a q : R) (dora : bool) :
  construct rng d_in d_out r a q dora true true
  = ([], Err match to_nf4 (of_rows (tabulate2 d_out d_in (draw_weight rng))) with
             | Ok _ => NotImplementedError
                         "Quantized LoRALinear does not support bias at the moment."
             | Err e => e
             end).
Proof.
  unfold construct, __init__, ctor_bind, lift, _create_weight_and_bias, nn_Linear.
  cbn [Linear_weight Linear_bias].
  destruct (to_nf4 (of_rows (tabulate2 d_out d_in (draw_weight rng)))); reflexivity.
Qed.

(** C9. [adapter_params] returns the names of the factor-A weight and of the
    factor-B weight, followed by the name of the magnitude vector exactly
    when DoRA is enabled. *)
Theorem adapter_params_names (self : LoRALinear) :
  adapter_params self
  = ["lora_a.weight"%string; "lora_b.weight"%string]
    ++ (if use_dora self then ["lora_m"%string] else [])
  /\ (In "lora_m"%string (adapter_params self) <-> use_dora self = true).
Proof.
  unfold adapter_params. destruct (use_dora self); simpl; split; auto.
  - tauto.
  - split; [| discriminate]. intros [H | [H | []]]; discriminate.
Qed.

(** C10. [init_dora] changes the magnitude vector only: whenever it
    returns, base weight and its representation, bias, factors A and B,
    dimensions, rank, alpha, the dropout module and the flags are those of
    the layer it was called on; and it does return on every layer with a
    plain base weight, a magnitude vector and a non-zero rank. *)
Theorem init_dora_frame (self : LoRALinear) :
  (forall self',
      init_dora self = Ok self' ->
      (exists n, lora_m self' = Some n) /\
      base_weight self' = base_weight self /\
      bias self' = bias self /\
      lora_a self' = lora_a self /\
      lora_b self' = lora_b self /\
      in_dim self' = in_dim self /\
      out_dim self' = out_dim self /\
      rank self' = rank self /\
      alpha self' = alpha self /\
      dropout self' = dropout self /\
      disabled self' = disabled self /\
      use_dora self' = use_dora self /\
      use_bias self' = use_bias self) /\
  (_quantize_base self = false -> rank self <> O ->
   forall m, lora_m self = Some m ->
   exists self', init_dora self = Ok self').
Proof.
  split.
  - intros self' H. destruct (init_dora_inv self self' H) as [n ->].
    simpl. split; [now exists n |]. repeat split; reflexivity.
  - intros Hq Hr m Hm. unfold init_dora, get_lora_m.
    rewrite (dora_weight_norm_plain self Hr Hq), Hm. simpl. now eexists.
Qed.

(** C2. On an enabled DoRA layer of non-zero rank with a plain base weight
    and a plain magnitude vector [m], [forward] returns the sum of the base
    output and the low-rank perturbation multiplied by the scale
    [m / weight_norm] viewed as a [(1, n)] tensor, [weight_norm] being the
    clamped row norms of [W + (alpha / rank) (B @ A)]: every vector along
    the last dimension of the sum, under all batch dimensions, is multiplied
    entry by entry by that one scale.  On a compressed base weight
    [forward] raises [TypeError] when it recomputes the norm. *)
Theorem forward_dora_grouping (self : LoRALinear) (keep : Mask) (x : Tensor) :
  use_dora self = true ->
  disabled self = false ->
  rank self <> O ->
  (_quantize_base self = true -> forward self keep x = Err TypeError) /\
  (_quantize_base self = false ->
   forall m, lora_m self = Some (Dense m) ->
   exists lora_out y,
     lora_output self keep x = Ok lora_out /\
     forward self keep x = Ok y /\
     y = tmul (tadd (base_output self x) lora_out)
              (view_1_neg1
                 (vdiv m (clamp_min (linalg_norm_dim1 (merged_weight self)) 1e-6))) /\
     leaves y = map (fun v =>
                       zip_with Rmult v
                         (vdiv m (clamp_min (linalg_norm_dim1 (merged_weight self)) 1e-6)))
                    (leaves (tadd (base_output self x) lora_out))).
Proof.
  intros Hdora Hdis Hr. split.
  - intros Hq. unfold forward, lora_output.
    rewrite Hdis, Hdora, (dora_weight_norm_quantized self Hq), (py_truediv_pos _ _ Hr).
    reflexivity.
  - intros Hq m Hm. unfold forward, lora_output, get_lora_m.
    rewrite Hdis, Hdora, Hm, (dora_weight_norm_plain self Hr Hq), (py_truediv_pos _ _ Hr).
    simpl. do 2 eexists.
    repeat split; try reflexivity.
    apply leaves_tmul_row.
Qed.

(** C7. Every norm vector [_dora_weight_norm] returns is a plain vector
    whose entries are all at least [1e-6]; and it returns one for every
    plain base weight and all factor values, when the rank is not zero. *)
Theorem dora_weight_norm_at_least_floor (self : LoRALinear) :
  (forall n, _dora_weight_norm self = Ok n ->
             exists norm, n = Dense norm /\ Forall (fun a => 1e-6 <= a) norm) /\
  (_quantize_base self = false -> rank self <> O ->
   exists norm,
     _dora_weight_norm self = Ok (Dense norm) /\
     length norm = Nat.min (length (full_weight self)) (length (Linear_weight (lora_b self))) /\
     Forall (fun a => 1e-6 <= a) norm).
Proof.
  split.
  - intros n H. destruct (dora_weight_norm_inv self n H) as (_ & _ & ->).
    eexists. split; [reflexivity | apply clamp_min_floor].
  - intros Hq Hr. eexists. split; [apply (dora_weight_norm_plain self Hr Hq) |]. split.
    + rewrite clamp_min_length. unfold merged_weight, linalg_norm_dim1, madd, mscale, matmul.
      now rewrite length_map, zip_with_length, !length_map.
    + apply clamp_min_floor.
Qed.

End LoRAFacts.

Lemma dropout_zero_p (keep : Mask) (x : Tensor) : Dropout_call no_dropout keep x = x.
Proof.
  unfold Dropout_call, no_dropout. simpl.
  destruct (Req_dec_T 0 0) as [_ | H]; [reflexivity | now contradiction H].
Qed.

Ltac vec_eq :=
  repeat match goal with
         | |- Ok _ = Ok _ => apply f_equal
         | |- Vec _ = Vec _ => apply f_equal
         | |- Batch _ = Batch _ => apply f_equal
         | |- Dense _ = Dense _ => apply f_equal
         | |- Some _ = Some _ => apply f_equal
         | |- _ :: _ = _ :: _ => apply f_equal2
         | |- @nil _ = @nil _ => reflexivity
         end.

(** C8. On the layer with [in_dim=4], [out_dim=2], [rank=1], [alpha=1.0],
    no dropout, DoRA, bias and compression off, [W=[[1,0,0,0],[0,1,0,0]]],
    [A=[[1,0,0,0]]] and [B=[[0],[0]]], the forward output on [x=[1,1,1,1]]
    is [[1,1]]; once factor B is set to [[1],[1]] the perturbation is
    [[1,1]] and the forward output is [[2,2]]. *)
Theorem end_to_end_example {S : Nf4Substrate} (keep : Mask) :
  let x := Vec [1; 1; 1; 1] in
  let layer := example_layer [[0]; [0]] in
  let layer' := set_lora_b layer (no_bias [[1]; [1]]) in
  forward layer keep x = Ok (Vec [1; 1]) /\
  lora_output layer keep x = Ok (Vec [0; 0]) /\
  lora_output layer' keep x = Ok (Vec [1; 1]) /\
  forward layer' keep x = Ok (Vec [2; 2]).
Proof.
  intros x layer layer'.
  unfold forward, lora_output, base_output, layer', layer, x. simpl.
  rewrite !dropout_zero_p.
  unfold py_truediv, tadd, tscale, Linear_call, F_linear. simpl.
  unfold matvec, vscale, vadd, dot, sum. simpl.
  repeat split; vec_eq; lra.
Qed.

Lemma nn_Dropout_ok (q : R) :
  0 <= q <= 1 -> nn_Dropout q = Ok {| p := q; training := true |}.
Proof.
  intros [H0 H1]. unfold nn_Dropout.
  destruct (Rlt_dec q 0); [lra |]. destruct (Rlt_dec 1 q); [lra | reflexivity].
Qed.

Lemma same_shape_F_linear (x : Tensor) (W : matrix) (b : option vector) (n : nat) :
  length W = n ->
  match b with Some b => length b = n | None => True end ->
  same_shape (F_linear x W b) (tzeros n x).
Proof.
  intros HW Hb. unfold F_linear, tzeros. apply same_shape_tmap. intros v.
  rewrite repeat_length. destruct b as [b |].
  - unfold vadd. rewrite zip_with_length, matvec_length. lia.
  - now rewrite matvec_length.
Qed.

Lemma same_shape_refl (t : Tensor) : same_shape t t.
Proof.
  induction t as [v | ts IH] using Tensor_nested_ind; simpl; auto.
  induction IH; simpl; auto.
Qed.

Lemma leaves_of_rows (W : matrix) : leaves (of_rows W) = W.
Proof.
  unfold of_rows. simpl. induction W as [| row W IH]; simpl; auto. now rewrite IH.
Qed.

Lemma blockwise_shapes : Nf4Shapes blockwise.
Proof.
  constructor. intros x W w.
  change (to_nf4 (of_rows W))
    with (if Nat.eqb (Nat.modulo (numel (of_rows W)) 64) 0
          then Ok (of_rows W) else Err AssertionError).
  destruct (Nat.eqb (Nat.modulo (numel (of_rows W)) 64) 0); [| discriminate].
  intros H. injection H as <-.
  change (same_shape (F_linear x (leaves (of_rows W)) None) (F_linear x W None)).
  rewrite leaves_of_rows. apply same_shape_refl.
Qed.

Section FreshLayer.
Context {S : Nf4Substrate}.

(** A zero factor B makes the perturbation the zero tensor, whatever the
    input, factor A and the dropout module do. *)
Lemma lora_output_zero_b (self : LoRALinear) (keep : Mask) (x : Tensor) :
  rank self <> O ->
  all_zero (Linear_weight (lora_b self)) ->
  Linear_bias (lora_b self) = None ->
  lora_output self keep x = Ok (tzeros (length (Linear_weight (lora_b self))) x).
Proof.
  intros Hr HB Hb. unfold lora_output. rewrite (py_truediv_pos _ _ Hr). simpl.
  rewrite (Linear_call_zero _ _ HB Hb), tscale_tzeros.
  unfold Linear_call at 1, F_linear. now rewrite tzeros_tmap, tzeros_dropout.
Qed.

Lemma forward_plain_lora (self : LoRALinear) (keep : Mask) (x : Tensor) (n : nat) :
  disabled self = false ->
  use_dora self = false ->
  lora_output self keep x = Ok (tzeros n x) ->
  same_shape (base_output self x) (tzeros n x) ->
  forward self keep x = Ok (base_output self x).
Proof.
  intros Hdis Hdora Hl Hs. unfold forward. rewrite Hdis, Hl, Hdora. simpl.
  now rewrite tadd_tzeros.
Qed.

(** C1, amended. A construction with a plain base weight and a dropout
    probability in [[0, 1]] returns a layer; and for every construction that
    returns one (plain or compressed base, positive rank), factor B of the
    new layer is zero and its low-rank perturbation is the zero tensor for
    every input and every dropout draw, and when DoRA is off the forward
    output is the base output exactly.  For a compressed base weight the
    substrate is taken to return NF4 products of the shape of the plain
    product. *)
Theorem fresh_layer_is_base_without_dora
    (rng : Draws) (d_in d_out r : nat) (a q : R) (dora with_bias quantized : bool) :
  (quantized = true -> Nf4Shapes S) ->
  r <> O ->
  (quantized = false -> 0 <= q <= 1 ->
   exists reg self,
     construct rng d_in d_out r a q dora with_bias quantized = (reg, Ok self)) /\
  (forall reg self,
      construct rng d_in d_out r a q dora with_bias quantized = (reg, Ok self) ->
      all_zero (Linear_weight (lora_b self)) /\
      (forall keep x, lora_output self keep x = Ok (tzeros d_out x)) /\
      (dora = false -> forall keep x, forward self keep x = Ok (base_output self x))).
Proof.
  intros L Hr.
  assert (HB : forall keep x self,
             rank self = r ->
             lora_b self = _lora_b_init_params
                             (nn_Linear (draw_lora_b_default rng) (fun _ => 0) r d_out false) ->
             lora_output self keep x = Ok (tzeros d_out x)).
  { intros keep x self Hrk Hb.
    assert (Hlen : length (Linear_weight (lora_b self)) = d_out).
    { rewrite Hb. unfold _lora_b_init_params, nn_Linear. cbn [Linear_weight].
      rewrite zeros_length. apply tabulate_length. }
    rewrite <- Hlen. apply lora_output_zero_b.
    - congruence.
    - rewrite Hb. apply zeros_all_zero.
    - now rewrite Hb. }
  assert (HW : length (tabulate2 d_out d_in (draw_weight rng)) = d_out)
    by apply tabulate_length.
  assert (Hbias : length (tabulate d_out (draw_bias rng)) = d_out)
    by apply tabulate_length.
  split.
  - intros -> Hq.
    unfold construct, __init__, ctor_bind, lift, register, _create_weight_and_bias.
    rewrite (nn_Dropout_ok _ Hq).
    destruct with_bias, dora; do 2 eexists; reflexivity.
  - intros reg self.
    unfold construct, __init__, ctor_bind, lift, register, _create_weight_and_bias, nn_Linear.
    cbn [Linear_weight Linear_bias].
    destruct quantized.
    + destruct (to_nf4 (of_rows (tabulate2 d_out d_in (draw_weight rng)))) as [w | e] eqn:Hw;
        destruct with_bias; cbn [bind fst snd]; try discriminate.
      destruct (nn_Dropout q) as [d | e]; [| discriminate].
      destruct dora; cbn -[tabulate2 tabulate kaiming_uniform_ zeros_ ones_ repeat];
        intros H; injection H as <- <-;
        (split; [apply zeros_all_zero |]);
        (split; [intros keep x; now apply HB |]);
        intros Hd; try discriminate; intros keep x;
        (eapply forward_plain_lora; [reflexivity | reflexivity | now apply HB |]).
      unfold base_output. cbn [_quantize_base weight].
      eapply same_shape_trans; [apply (@linear_nf4_shape S (L eq_refl) x _ w Hw) |].
      apply same_shape_F_linear; [exact HW | exact I].
    + cbn [bind fst snd].
      destruct (nn_Dropout q) as [d | e]; [| destruct with_bias; discriminate].
      destruct with_bias, dora; cbn -[tabulate2 tabulate kaiming_uniform_ zeros_ ones_ repeat];
        intros H; injection H as <- <-;
        (split; [apply zeros_all_zero |]);
        (split; [intros keep x; now apply HB |]);
        intros Hd; try discriminate; intros keep x;
        (eapply forward_plain_lora; [reflexivity | reflexivity | now apply HB |]);
        unfold base_output; cbn [_quantize_base weight bias];
        apply same_shape_F_linear; auto; exact I.
Qed.

End FreshLayer.

(** * The combined-weight norm *)

Lemma nth_map_lt {A B : Type} (f : A -> B) (l : list A) (i : nat) (d : A) (d' : B) :
  (i < length l)%nat -> nth i (map f l) d' = f (nth i l d).
Proof.
  revert i. induction l as [| a l IH]; intros [| i] Hi; simpl in *; try lia; auto.
  apply IH. lia.
Qed.

Lemma ncols_shaped (r c : nat) (M : matrix) : shaped r c M -> r <> O -> ncols M = c.
Proof.
  intros [Hlen Hrows] Hr. destruct M as [| row M]; simpl in *; [lia |].
  now inversion Hrows.
Qed.

Lemma shaped_row (r c : nat) (M : matrix) (i : nat) :
  shaped r c M -> (i < r)%nat -> length (nth i M []) = c.
Proof.
  intros [Hlen Hrows] Hi. rewrite Forall_forall in Hrows.
  apply Hrows, nth_In. lia.
Qed.

Lemma map_const_seq {A : Type} (a : A) (n : nat) :
  forall i, map (fun _ => a) (seq i n) = repeat a n.
Proof. induction n as [| n IH]; intros i; simpl; auto. now rewrite IH. Qed.

Lemma matmul_zero_l (B A : matrix) :
  all_zero B -> matmul B A = map (fun _ => repeat 0 (ncols A)) B.
Proof.
  unfold all_zero, matmul. induction 1 as [| brow B Hrow HB IH]; simpl; auto.
  f_equal; [| exact IH].
  rewrite <- (map_const_seq 0 (ncols A) O). apply map_ext.
  intros j. now apply dot_zero_l.
Qed.

Lemma madd_zero_r (c : nat) (W Z : matrix) :
  length W = length Z ->
  Forall (fun row => length row = c) W ->
  Forall (fun row => row = repeat 0 c) Z ->
  madd W Z = W.
Proof.
  unfold madd. revert Z.
  induction W as [| w W IH]; intros [| z Z] Hlen HW HZ; simpl in *; try discriminate; auto.
  inversion HW; subst. inversion HZ; subst. f_equal.
  - apply vadd_zero_r; [now rewrite repeat_length | apply repeat_zero_Forall].
  - apply IH; auto.
Qed.

(** With factor B zero, the combined weight is the base weight. *)
Lemma combined_weight_zero_b (r c k : nat) (s : R) (W A B : matrix) :
  k <> O -> shaped r c W -> shaped k c A -> length B = r -> all_zero B ->
  madd W (mscale s (matmul B A)) = W.
Proof.
  intros Hk [HlenW HrowsW] HA HlenB HB.
  rewrite (matmul_zero_l _ _ HB), (ncols_shaped _ _ _ HA Hk).
  apply (madd_zero_r c); auto.
  - unfold mscale. rewrite !length_map. lia.
  - unfold mscale. rewrite map_map. apply Forall_forall. intros row Hin.
    apply in_map_iff in Hin. destruct Hin as [b [<- _]]. apply vscale_zeros.
Qed.

Lemma clamp_min_id (v : vector) (m : R) :
  Forall (fun a => m <= a) v -> clamp_min v m = v.
Proof.
  unfold clamp_min. induction 1 as [| a v Ha Hv IH]; simpl; auto.
  rewrite IH. f_equal. now apply Rmax_left.
Qed.

Section WeightNorm.
Context {S : Nf4Substrate}.

Lemma merged_weight_zero_b (self : LoRALinear) :
  rank self <> O -> well_shaped self -> all_zero (Linear_weight (lora_b self)) ->
  merged_weight self = full_weight self.
Proof.
  intros Hr (HW & HA & HB) Hz. unfold merged_weight.
  apply (combined_weight_zero_b _ _ _ _ _ _ _ Hr HW HA (proj1 HB) Hz).
Qed.

Lemma dora_weight_norm_zero_b (self : LoRALinear) :
  _quantize_base self = false ->
  rank self <> O -> well_shaped self -> all_zero (Linear_weight (lora_b self)) ->
  _dora_weight_norm self =
  Ok (Dense (clamp_min (linalg_norm_dim1 (full_weight self)) 1e-6)).
Proof.
  intros Hq Hr Hws Hz.
  now rewrite (dora_weight_norm_plain self Hr Hq), (merged_weight_zero_b self Hr Hws Hz).
Qed.

(** C6, amended. On a well-shaped layer with a plain base weight and a
    magnitude vector whose factor B is zero, [init_dora] sets the magnitude
    vector to the per-row Euclidean norm of the base weight alone with every
    entry clamped to a minimum of [1e-6]; where all row norms are at least
    [1e-6], that is the row norm itself. *)
Theorem init_dora_zero_b_magnitude (self : LoRALinear) (m : Param) :
  _quantize_base self = false ->
  lora_m self = Some m ->
  rank self <> O ->
  well_shaped self ->
  all_zero (Linear_weight (lora_b self)) ->
  exists self',
    init_dora self = Ok self' /\
    lora_m self' = Some (Dense (clamp_min (linalg_norm_dim1 (full_weight self)) 1e-6)) /\
    (Forall (fun a => 1e-6 <= a) (linalg_norm_dim1 (full_weight self)) ->
     lora_m self' = Some (Dense (linalg_norm_dim1 (full_weight self)))).
Proof.
  intros Hq Hm Hr Hwf Hz. unfold init_dora, get_lora_m.
  rewrite (dora_weight_norm_zero_b self Hq Hr Hwf Hz), Hm. simpl.
  eexists. split; [reflexivity |]. simpl. split; [reflexivity |].
  intros Hfloor. now rewrite clamp_min_id.
Qed.

End WeightNorm.

Lemma sum_map_seq_shift (f : nat -> R) (n : nat) :
  forall i, sum (map f (seq (Datatypes.S i) n)) = sum (map (fun k => f (Datatypes.S k)) (seq i n)).
Proof.
  induction n as [| n IH]; intros i; simpl; auto. now rewrite IH.
Qed.

Lemma big_sum_succ (f : nat -> R) (n : nat) :
  big_sum (Datatypes.S n) f = f O + big_sum n (fun k => f (Datatypes.S k)).
Proof.
  unfold big_sum. simpl. now rewrite sum_map_seq_shift.
Qed.

Lemma big_sum_ext (f g : nat -> R) (n : nat) :
  (forall k, (k < n)%nat -> f k = g k) -> big_sum n f = big_sum n g.
Proof.
  revert f g. induction n as [| n IH]; intros f g Hfg; [reflexivity |].
  rewrite !big_sum_succ. rewrite (Hfg O) by lia. f_equal.
  apply IH. intros k Hk. apply Hfg. lia.
Qed.

(** The product of two vectors of length [n] is the sum of the products of
    their entries. *)
Lemma dot_big_sum (n : nat) :
  forall u v : vector,
    length u = n -> length v = n ->
    dot u v = big_sum n (fun k => nth k u 0 * nth k v 0).
Proof.
  induction n as [| n IH]; intros [| a u] [| b v] Hu Hv; simpl in *; try discriminate.
  - reflexivity.
  - rewrite big_sum_succ. simpl. unfold dot in *. simpl. f_equal.
    apply IH; lia.
Qed.

Lemma dot_map_self (g : nat -> R) (l : list nat) :
  dot (map g l) (map g l) = sum (map (fun j => Rsqr (g j)) l).
Proof.
  unfold dot. induction l as [| j l IH]; simpl; auto. now rewrite IH.
Qed.

Lemma column_length (j : nat) (M : matrix) : length (column j M) = length M.
Proof. unfold column. apply length_map. Qed.

Lemma nth_column (j k : nat) (M : matrix) : nth k (column j M) 0 = entry M k j.
Proof.
  unfold column, entry. destruct (Nat.lt_ge_cases k (length M)) as [Hk | Hk].
  - exact (nth_map_lt (fun row => nth j row 0) M k [] 0 Hk).
  - rewrite (nth_overflow (map _ M)) by (rewrite length_map; lia).
    rewrite (nth_overflow M) by lia. now destruct j.
Qed.

Lemma nth_madd (W Z : matrix) (i : nat) :
  (i < length W)%nat -> (i < length Z)%nat ->
  nth i (madd W Z) [] = vadd (nth i W []) (nth i Z []).
Proof. intros HW HZ. unfold madd. now apply nth_zip_with. Qed.

Lemma nth_mscale (s : R) (M : matrix) (i : nat) :
  (i < length M)%nat -> nth i (mscale s M) [] = vscale s (nth i M []).
Proof. intros HM. unfold mscale. now apply nth_map_lt. Qed.

Lemma nth_matmul (B A : matrix) (i : nat) :
  (i < length B)%nat ->
  nth i (matmul B A) [] = map (fun j => dot (nth i B []) (column j A)) (seq 0 (ncols A)).
Proof.
  intros HB. unfold matmul.
  exact (nth_map_lt (fun brow => map (fun j => dot brow (column j A)) (seq 0 (ncols A)))
           B i [] [] HB).
Qed.

Lemma matmul_length (B A : matrix) : length (matmul B A) = length B.
Proof. unfold matmul. apply length_map. Qed.

Lemma mscale_length (s : R) (M : matrix) : length (mscale s M) = length M.
Proof. unfold mscale. apply length_map. Qed.

(** Row [i] of [W + s * (B @ A)], entry by entry. *)
Lemma combined_weight_row (r c k : nat) (s : R) (W A B : matrix) (i : nat) :
  k <> O -> shaped r c W -> shaped k c A -> shaped r k B -> (i < r)%nat ->
  nth i (madd W (mscale s (matmul B A))) []
  = map (fun j => entry W i j + s * big_sum k (fun l => entry B i l * entry A l j))
        (seq 0 c).
Proof.
  intros Hk HW HA HB Hi.
  assert (HWi := shaped_row _ _ _ i HW Hi).
  assert (HBi := shaped_row _ _ _ i HB Hi).
  destruct HW as [HlenW _]. destruct HB as [HlenB _].
  rewrite nth_madd by (rewrite ?mscale_length, ?matmul_length; lia).
  rewrite nth_mscale by (rewrite ?matmul_length; lia).
  rewrite nth_matmul by lia.
  rewrite (ncols_shaped _ _ _ HA Hk).
  apply (nth_ext _ _ 0 0).
  - unfold vadd, vscale. rewrite zip_with_length, !length_map, length_seq. lia.
  - intros j Hj. unfold vadd, vscale in Hj. unfold vadd, vscale.
    rewrite zip_with_length, !length_map, length_seq in Hj.
    rewrite (nth_zip_with Rplus _ _ j 0 0 0) by (rewrite ?length_map, ?length_seq; lia).
    rewrite (nth_map_lt (Rmult s) _ j 0 0) by (rewrite ?length_map, ?length_seq; lia).
    rewrite (nth_map_lt _ (seq 0 c) j O 0) by (rewrite length_seq; lia).
    rewrite (nth_map_lt _ (seq 0 c) j O 0) by (rewrite length_seq; lia).
    rewrite seq_nth by lia. simpl.
    rewrite (dot_big_sum k) by (rewrite ?column_length; destruct HA; lia).
    unfold entry at 1. do 2 f_equal.
    apply big_sum_ext. intros l _. now rewrite nth_column.
Qed.

Section NormSpec.
Context {S : Nf4Substrate}.

(** C3. On a well-shaped layer with a plain base weight and a non-zero
    rank, [_dora_weight_norm] returns, for every output row of
    [R = W + (alpha / rank) (B @ A)], the Euclidean norm across the input
    dimension clamped to a minimum of [1e-6], a vector of length [out_dim].
    On a compressed base weight it returns nothing: the call that should
    decompress the weight raises [TypeError]. *)
Theorem dora_weight_norm_meets_spec (self : LoRALinear) :
  (_quantize_base self = true -> _dora_weight_norm self = Err TypeError) /\
  (_quantize_base self = false ->
   rank self <> O ->
   well_shaped self ->
   _dora_weight_norm self =
   Ok (Dense
         (spec_weight_norm (in_dim self) (out_dim self) (rank self) (alpha self)
            (full_weight self) (Linear_weight (lora_a self)) (Linear_weight (lora_b self))))
   /\ length (spec_weight_norm (in_dim self) (out_dim self) (rank self) (alpha self)
                (full_weight self) (Linear_weight (lora_a self)) (Linear_weight (lora_b self)))
      = out_dim self).
Proof.
  split; [apply dora_weight_norm_quantized |].
  intros Hq Hr (HW & HA & HB). split; [| apply tabulate_length].
  rewrite (dora_weight_norm_plain self Hr Hq). do 2 f_equal.
  unfold spec_weight_norm, tabulate, clamp_min, linalg_norm_dim1, merged_weight.
  set (M := madd _ _).
  assert (HlenM : length M = out_dim self).
  { unfold M, madd, mscale, matmul. rewrite zip_with_length, !length_map.
    destruct HW, HB. lia. }
  apply (nth_ext _ _ 0 0).
  - now rewrite !length_map, length_seq.
  - intros i Hi. rewrite !length_map, HlenM in Hi.
    rewrite (nth_map_lt _ _ i 0 0) by (rewrite length_map; lia).
    rewrite (nth_map_lt _ M i [] 0) by lia.
    rewrite (nth_map_lt _ (seq 0 (out_dim self)) i O 0) by (rewrite length_seq; lia).
    rewrite seq_nth by lia. simpl. unfold M.
    rewrite (combined_weight_row _ _ _ _ _ _ _ i Hr HW HA HB Hi), dot_map_self.
    reflexivity.
Qed.

End NormSpec.

(** * Shapes of freshly initialised parameters *)

Lemma shaped_tabulate2 (r c : nat) (f : nat -> nat -> R) : shaped r c (tabulate2 r c f).
Proof.
  unfold shaped, tabulate2. split; [apply tabulate_length |].
  apply Forall_forall. intros row Hin. unfold tabulate in Hin.
  apply in_map_iff in Hin. destruct Hin as [i [<- _]]. apply tabulate_length.
Qed.

Lemma shaped_zeros (r c : nat) (M : matrix) : shaped r c M -> shaped r c (zeros_ M).
Proof.
  intros [Hlen Hrows]. unfold shaped, zeros_. split; [now rewrite length_map |].
  apply Forall_forall. intros row Hin. apply in_map_iff in Hin.
  destruct Hin as [row' [<- Hin']]. rewrite length_map.
  rewrite Forall_forall in Hrows. now apply Hrows.
Qed.

Lemma mapi_from_length {A B : Type} (f : nat -> A -> B) (l : list A) :
  forall i, length (mapi_from f i l) = length l.
Proof. induction l as [| a l IH]; intros i; simpl; auto. Qed.

Lemma mapi_from_Forall {A B : Type} (f : nat -> A -> B) (P : A -> Prop) (Q : B -> Prop)
    (l : list A) :
  (forall i a, P a -> Q (f i a)) -> Forall P l -> forall i, Forall Q (mapi_from f i l).
Proof.
  intros HPQ. induction 1 as [| a l Ha Hl IH]; intros i; simpl; constructor; auto.
Qed.

Lemma shaped_kaiming (r c : nat) (d : nat -> nat -> R) (M : matrix) :
  shaped r c M -> shaped r c (kaiming_uniform_ d M).
Proof.
  intros [Hlen Hrows]. unfold shaped, kaiming_uniform_. split.
  - now rewrite mapi_from_length.
  - apply (mapi_from_Forall _ (fun row => length row = c)); [| exact Hrows].
    intros i row Hrow. now rewrite mapi_from_length.
Qed.

Lemma ones_repeat (a : R) (n : nat) : ones_ (repeat a n) = repeat 1 n.
Proof. unfold ones_. induction n as [| n IH]; simpl; auto. now rewrite IH. Qed.


(** * Concrete layers *)

Lemma tiny_dora_well_shaped (w a m : R) : well_shaped (tiny_dora_layer w a m).
Proof. unfold well_shaped, shaped. simpl. repeat split; repeat constructor. Qed.

Lemma tiny_dora_weight_norm (w a m : R) :
  0 <= w ->
  _dora_weight_norm (tiny_dora_layer w a m) = Ok (Dense [Rmax w 1e-6]).
Proof.
  intros Hw. rewrite dora_weight_norm_zero_b.
  - simpl. unfold dot, sum. simpl.
    replace (w * w + 0) with (w * w) by lra. now rewrite sqrt_square.
  - reflexivity.
  - discriminate.
  - apply tiny_dora_well_shaped.
  - repeat constructor.
Qed.

Lemma tiny_dora_forward (w a m x : R) (keep : Mask) :
  0 <= w ->
  forward (tiny_dora_layer w a m) keep (Batch [Vec [x]])
  = Ok (Batch [Vec [(w * x + 0 + 1 / 1 * (0 * (a * x + 0) + 0)) * (m / Rmax w 1e-6)]]).
Proof.
  intros Hw. unfold forward. cbn [disabled use_dora tiny_dora_layer].
  rewrite (tiny_dora_weight_norm w a m Hw).
  unfold lora_output, get_lora_m, base_output.
  cbn [dropout lora_a lora_b lora_m alpha rank weight bias _quantize_base tiny_dora_layer].
  rewrite dropout_zero_p. reflexivity.
Qed.

Lemma construct_tiny_dora :
  construct half_draws 1 1 1 1 0 true false false
  = (["weight"; "bias"; "lora_a.weight"; "lora_b.weight"; "lora_m"]%string,
     Ok (tiny_dora_layer (1 / 2) (1 / 2) 1)).
Proof.
  unfold construct, __init__, ctor_bind, lift, register, _create_weight_and_bias.
  rewrite nn_Dropout_ok by lra. reflexivity.
Qed.

(** C1 fails as stated: the layer built with DoRA on, dimensions 1, rank 1,
    every drawn value [1/2] and no dropout maps the input [[[1]]] to [[[1]]],
    while its base output is [[[1/2]]]. *)
Lemma fresh_dora_layer_differs_from_base :
  exists reg self,
    construct half_draws 1 1 1 1 0 true false false = (reg, Ok self) /\
    forward self keep_all (Batch [Vec [1]]) = Ok (Batch [Vec [1]]) /\
    base_output self (Batch [Vec [1]]) = Batch [Vec [1 / 2]] /\
    forward self keep_all (Batch [Vec [1]]) <> Ok (base_output self (Batch [Vec [1]])).
Proof.
  do 2 eexists. split; [apply construct_tiny_dora |].
  assert (Hf : forward (tiny_dora_layer (1 / 2) (1 / 2) 1) keep_all (Batch [Vec [1]])
               = Ok (Batch [Vec [1]])).
  { rewrite tiny_dora_forward by lra. rewrite Rmax_left by lra. vec_eq. field. }
  assert (Hb : base_output (tiny_dora_layer (1 / 2) (1 / 2) 1) (Batch [Vec [1]])
               = Batch [Vec [1 / 2]]).
  { unfold base_output, F_linear. simpl. unfold matvec, dot, sum. simpl. vec_eq. lra. }
  repeat split; auto.
  rewrite Hf, Hb. intros H. injection H as H. lra.
Qed.

(** C6 fails as stated: on the 1-by-1 DoRA layer with base weight [[[0]]]
    and factor B zero, [init_dora] sets the magnitude to [[1e-6]], while the
    row norm of the base weight is [[0]]. *)
Lemma init_dora_zero_row_is_clamped :
  exists self',
    init_dora (tiny_dora_layer 0 1 1) = Ok self' /\
    lora_m self' = Some (Dense [1e-6]) /\
    linalg_norm_dim1 (full_weight (tiny_dora_layer 0 1 1)) = [0] /\
    lora_m self' <> Some (Dense (linalg_norm_dim1 (full_weight (tiny_dora_layer 0 1 1)))).
Proof.
  assert (Hn : linalg_norm_dim1 (full_weight (tiny_dora_layer 0 1 1)) = [0]).
  { simpl. unfold dot, sum. simpl. replace (0 * 0 + 0) with 0 by lra. now rewrite sqrt_0. }
  unfold init_dora. rewrite tiny_dora_weight_norm by lra. rewrite Rmax_right by lra.
  eexists. split; [reflexivity |]. split; [reflexivity |]. split; [exact Hn |].
  rewrite Hn. simpl. intros H. injection H as H. lra.
Qed.

(** * The theorems at concrete layers *)

Lemma dora_example_well_shaped : well_shaped dora_example_layer.
Proof. unfold well_shaped, shaped. simpl. repeat split; repeat constructor. Defined.

Lemma concat_length_shaped (r c : nat) (M : matrix) :
  shaped r c M -> length (concat M) = (r * c)%nat.
Proof.
  intros [Hlen Hrows]. subst r.
  induction Hrows as [| row M Hrow HM IH]; simpl; auto.
  rewrite length_app, IH. lia.
Qed.

Lemma numel_of_rows_tabulate2 (r c : nat) (f : nat -> nat -> R) :
  numel (of_rows (tabulate2 r c f)) = (r * c)%nat.
Proof.
  unfold numel. rewrite leaves_of_rows.
  apply concat_length_shaped, shaped_tabulate2.
Qed.

(** The encoder accepts the 1 x 16384 weight, and the construction returns
    the layer [quantized_layer]. *)
Lemma construct_quantized_layer (dora : bool) :
  construct half_draws (128 * 128) 1 1 1 0 dora false true
  = (registered_names dora, Ok (quantized_layer dora)).
Proof.
  unfold construct, __init__, ctor_bind, lift, register, _create_weight_and_bias, nn_Linear.
  cbn [Linear_weight Linear_bias].
  change (to_nf4 (of_rows (tabulate2 1 (128 * 128) (draw_weight half_draws))))
    with (if Nat.eqb
               (Nat.modulo
                  (numel (of_rows (tabulate2 1 (128 * 128) (draw_weight half_draws)))) 64) 0
          then Ok (of_rows (tabulate2 1 (128 * 128) (draw_weight half_draws)))
          else Err AssertionError).
  rewrite numel_of_rows_tabulate2.
  change (Nat.eqb (Nat.modulo (1 * (128 * 128)) 64) 0) with true.
  rewrite nn_Dropout_ok by lra.
  destruct dora; reflexivity.
Qed.

Lemma fresh_layer_is_base_without_dora_witness :
  (exists reg self,
      construct half_draws 4 2 1 1 0 false false false = (reg, Ok self)) /\
  (forall reg self,
      construct half_draws 4 2 1 1 0 false false false = (reg, Ok self) ->
      all_zero (Linear_weight (lora_b self)) /\
      (forall keep x, lora_output self keep x = Ok (tzeros 2 x)) /\
      (false = false -> forall keep x, forward self keep x = Ok (base_output self x))) /\
  (forall keep x,
      forward (quantized_layer false) keep x = Ok (base_output (quantized_layer false) x)).
Proof.
  destruct (fresh_layer_is_base_without_dora half_draws 4 2 1 1 0 false false false)
    as [Hex Hall]; [discriminate | discriminate |].
  split; [apply Hex; [reflexivity | lra] |]. split; [exact Hall |].
  destruct (fresh_layer_is_base_without_dora half_draws (128 * 128) 1 1 1 0 false false true)
    as [_ Hq]; [intros _; exact blockwise_shapes | discriminate |].
  apply (Hq _ _ (construct_quantized_layer false)). reflexivity.
Defined.

Lemma construct_quantized_with_bias_4x2 :
  construct half_draws 4 2 1 1 0 false true true = ([], Err AssertionError).
Proof.
  rewrite (construct_quantized_with_bias_fails half_draws 4 2 1 1 0 false). reflexivity.
Defined.

Lemma forward_dora_grouping_witness :
  (exists lora_out y,
      lora_output dora_example_layer keep_all (Vec [1; 1; 1; 1]) = Ok lora_out /\
      forward dora_example_layer keep_all (Vec [1; 1; 1; 1]) = Ok y /\
      y = tmul (tadd (base_output dora_example_layer (Vec [1; 1; 1; 1])) lora_out)
               (view_1_neg1
                  (vdiv [1; 1]
                     (clamp_min (linalg_norm_dim1 (merged_weight dora_example_layer)) 1e-6))) /\
      leaves y
      = map (fun v =>
               zip_with Rmult v
                 (vdiv [1; 1]
                    (clamp_min (linalg_norm_dim1 (merged_weight dora_example_layer)) 1e-6)))
            (leaves (tadd (base_output dora_example_layer (Vec [1; 1; 1; 1])) lora_out))) /\
  (forall x, forward (quantized_layer true) keep_all x = Err TypeError).
Proof.
  split.
  - destruct (forward_dora_grouping dora_example_layer keep_all (Vec [1; 1; 1; 1]))
      as [_ Hplain]; [reflexivity | reflexivity | discriminate |].
    apply (Hplain eq_refl [1; 1]). reflexivity.
  - intros x.
    destruct (forward_dora_grouping (quantized_layer true) keep_all x)
      as [Hq _]; [reflexivity | reflexivity | discriminate |].
    apply Hq. reflexivity.
Defined.

Lemma dora_weight_norm_meets_spec_witness :
  (_dora_weight_norm dora_example_layer =
   Ok (Dense
         (spec_weight_norm 4 2 1 1 [[1; 0; 0; 0]; [0; 1; 0; 0]] [[1; 0; 0; 0]] [[1]; [1]]))
   /\ length (spec_weight_norm 4 2 1 1 [[1; 0; 0; 0]; [0; 1; 0; 0]] [[1; 0; 0; 0]] [[1]; [1]])
      = 2%nat) /\
  _dora_weight_norm (quantized_layer true) = Err TypeError.
Proof.
  split.
  - apply (proj2 (dora_weight_norm_meets_spec dora_example_layer));
      [reflexivity | discriminate | exact dora_example_well_shaped].
  - apply (proj1 (dora_weight_norm_meets_spec (quantized_layer true))). reflexivity.
Defined.

Lemma forward_disabled_is_base_witness :
  (forall keep,
      forward (set_disabled dora_example_layer true) keep (Vec [1; 1; 1; 1])
      = Ok (base_output (set_disabled dora_example_layer true) (Vec [1; 1; 1; 1]))) /\
  (forall (a b : Linear) (d : Dropout) (m : option Param) (keep keep' : Mask),
      forward (set_lora_a (set_lora_b (set_dropout
                 (set_lora_m (set_disabled dora_example_layer true) m) d) b) a)
              keep' (Vec [1; 1; 1; 1])
      = forward (set_disabled dora_example_layer true) keep (Vec [1; 1; 1; 1])).
Proof.
  apply (forward_disabled_is_base (set_disabled dora_example_layer true) (Vec [1; 1; 1; 1])).
  reflexivity.
Defined.

Lemma init_dora_zero_b_magnitude_witness :
  exists self',
    init_dora (tiny_dora_layer 1 1 1) = Ok self' /\
    lora_m self' = Some (Dense (clamp_min (linalg_norm_dim1 [[1]]) 1e-6)) /\
    (Forall (fun a => 1e-6 <= a) (linalg_norm_dim1 [[1]]) ->
     lora_m self' = Some (Dense (linalg_norm_dim1 [[1]]))).
Proof.
  apply (init_dora_zero_b_magnitude (tiny_dora_layer 1 1 1) (Dense [1]));
    [reflexivity | reflexivity | discriminate | apply tiny_dora_well_shaped
    | repeat constructor].
Defined.

Lemma dora_weight_norm_at_least_floor_witness :
  exists norm,
    _dora_weight_norm dora_example_layer = Ok (Dense norm) /\
    length norm = 2%nat /\
    Forall (fun a => 1e-6 <= a) norm.
Proof.
  apply (proj2 (dora_weight_norm_at_least_floor dora_example_layer));
    [reflexivity | discriminate].
Defined.

Lemma init_dora_frame_witness :
  exists self',
    init_dora dora_example_layer = Ok self' /\
    (exists n, lora_m self' = Some n) /\
    base_weight self' = base_weight dora_example_layer /\
    bias self' = bias dora_example_layer /\
    lora_a self' = lora_a dora_example_layer /\
    lora_b self' = lora_b dora_example_layer /\
    in_dim self' = 4%nat /\
    out_dim self' = 2%nat /\
    rank self' = 1%nat /\
    alpha self' = 1 /\
    dropout self' = no_dropout /\
    disabled self' = false /\
    use_dora self' = true /\
    use_bias self' = false.
Proof.
  destruct (init_dora_frame dora_example_layer) as [Hframe Hex].
  destruct (Hex eq_refl ltac:(discriminate) (Dense [1; 1]) eq_refl) as [self' H].
  exists self'. split; [exact H | exact (Hframe self' H)].
Defined.

(** * Construction and re-initialisation *)

Section Construction.
Context {S : Nf4Substrate}.

(** X1. A construction with a plain base weight and a dropout probability
    in [[0, 1]] (the rank may be zero) succeeds, registers [weight], [bias],
    [lora_a.weight], [lora_b.weight] and, with DoRA, [lora_m], in that
    order, and returns an enabled layer in training mode that stores its
    arguments, whose factors have the declared shapes and no bias, whose
    base weight is [out_dim x in_dim], whose bias is present exactly when
    asked for, and whose magnitude vector is all ones of length [out_dim]
    exactly when DoRA is on. *)
Theorem construct_fresh_state (rng : Draws) (d_in d_out r : nat) (a q : R)
    (dora with_bias : bool) :
  0 <= q <= 1 ->
  exists self,
    construct rng d_in d_out r a q dora with_bias false
    = (registered_names dora, Ok self) /\
    in_dim self = d_in /\ out_dim self = d_out /\ rank self = r /\ alpha self = a /\
    use_dora self = dora /\ use_bias self = with_bias /\ _quantize_base self = false /\
    disabled self = false /\
    dropout self = {| p := q; training := true |} /\
    shaped r d_in (Linear_weight (lora_a self)) /\
    shaped d_out r (Linear_weight (lora_b self)) /\
    Linear_bias (lora_a self) = None /\
    Linear_bias (lora_b self) = None /\
    shaped d_out d_in (full_weight self) /\
    match bias self with
    | Some b => with_bias = true /\ length b = d_out
    | None => with_bias = false
    end /\
    lora_m self = (if dora then Some (Dense (repeat 1 d_out)) else None).
Proof.
  intros Hq.
  unfold construct, __init__, ctor_bind, lift, register, _create_weight_and_bias.
  rewrite (nn_Dropout_ok _ Hq).
  assert (HA := shaped_kaiming _ _ (draw_lora_a rng) _
                  (shaped_tabulate2 r d_in (draw_lora_a_default rng))).
  assert (HB := shaped_zeros _ _ _ (shaped_tabulate2 d_out r (draw_lora_b_default rng))).
  assert (HW := shaped_tabulate2 d_out d_in (draw_weight rng)).
  assert (Hb := tabulate_length d_out (draw_bias rng)).
  assert (Hm := ones_repeat 0 d_out).
  destruct HA as [HA1 HA2], HB as [HB1 HB2], HW as [HW1 HW2].
  destruct with_bias, dora;
    (eexists; split; [reflexivity |]);
    cbn -[tabulate2 tabulate kaiming_uniform_ zeros_ ones_ repeat];
    rewrite ?Hm; repeat split; auto; discriminate.
Qed.

(** X2. Whenever a construction returns, every name [adapter_params]
    returns for the new layer is among the parameter names the construction
    registered, and the only registered names it leaves out are those of the
    base, [weight] and [bias]; and a construction with a plain base weight
    and a dropout probability in [[0, 1]] does return. *)
Theorem adapter_params_registered (rng : Draws) (d_in d_out r : nat) (a q : R)
    (dora with_bias quantized : bool) :
  (quantized = false -> 0 <= q <= 1 ->
   exists reg self,
     construct rng d_in d_out r a q dora with_bias quantized = (reg, Ok self)) /\
  (forall reg self,
      construct rng d_in d_out r a q dora with_bias quantized = (reg, Ok self) ->
      incl (adapter_params self) reg /\
      (forall name, In name reg ->
         In name (adapter_params self) \/ name = "weight"%string \/ name = "bias"%string)).
Proof.
  split.
  - intros -> Hq.
    unfold construct, __init__, ctor_bind, lift, register, _create_weight_and_bias.
    rewrite (nn_Dropout_ok _ Hq).
    destruct with_bias, dora; do 2 eexists; reflexivity.
  - intros reg self.
    unfold construct, __init__, ctor_bind, lift, register, _create_weight_and_bias, nn_Linear.
    cbn [Linear_weight Linear_bias].
    assert (Hnames : forall (l : LoRALinear),
               incl (adapter_params l) (registered_names (use_dora l)) /\
               (forall name, In name (registered_names (use_dora l)) ->
                  In name (adapter_params l)
                  \/ name = "weight"%string \/ name = "bias"%string)).
    { intros l. unfold adapter_params, registered_names.
      destruct (use_dora l); simpl; split.
      - intros name Hin; simpl in *; tauto.
      - intros name Hin.
        repeat (destruct Hin as [Hin | Hin]; [subst name; simpl; auto 10 |]); contradiction.
      - intros name Hin; simpl in *; tauto.
      - intros name Hin.
        repeat (destruct Hin as [Hin | Hin]; [subst name; simpl; auto 10 |]); contradiction. }
    destruct quantized;
      [destruct (to_nf4 (of_rows (tabulate2 d_out d_in (draw_weight rng)))) as [w | e] |];
      destruct with_bias; cbn [bind fst snd]; try discriminate;
      (destruct (nn_Dropout q) as [d | e']; [| discriminate]);
      destruct dora; cbn -[tabulate2 tabulate kaiming_uniform_ zeros_ ones_ repeat];
      intros H; injection H as <- <-;
      match goal with
      | |- incl (adapter_params ?l) _ /\ _ => exact (Hnames l)
      end.
Qed.

End Construction.

Section Lifecycle.
Context {S : Nf4Substrate}.

Lemma dora_weight_norm_set_lora_m (self : LoRALinear) (m : option Param) :
  _dora_weight_norm (set_lora_m self m) = _dora_weight_norm self.
Proof. reflexivity. Qed.

(** X5. On a layer with a plain base weight, calling [init_dora] a second
    time changes nothing: the norm it stores does not depend on the
    magnitude vector it overwrites. *)
Theorem init_dora_idempotent (self : LoRALinear) (m : Param) :
  _quantize_base self = false ->
  lora_m self = Some m ->
  rank self <> O ->
  exists self', init_dora self = Ok self' /\ init_dora self' = Ok self'.
Proof.
  intros Hq Hm Hr. unfold init_dora at 1. unfold get_lora_m.
  rewrite (dora_weight_norm_plain self Hr Hq), Hm. simpl.
  eexists. split; [reflexivity |].
  unfold init_dora, get_lora_m. rewrite dora_weight_norm_set_lora_m.
  rewrite (dora_weight_norm_plain self Hr Hq). reflexivity.
Qed.

(** X6. On a layer of rank zero with a plain base weight, [alpha / rank]
    raises: an enabled [forward] on an input whose last dimension is
    [in_dim], [_dora_weight_norm] and [init_dora] all end in
    [ZeroDivisionError], and only a disabled [forward] still returns the
    base output. *)
Theorem rank_zero_raises (self : LoRALinear) :
  rank self = O ->
  _quantize_base self = false ->
  (disabled self = false ->
   forall keep x, last_dim (in_dim self) x ->
                  forward self keep x = Err ZeroDivisionError) /\
  _dora_weight_norm self = Err ZeroDivisionError /\
  init_dora self = Err ZeroDivisionError /\
  (forall keep x, last_dim (in_dim self) x ->
                  forward (set_disabled self true) keep x = Ok (base_output self x)).
Proof.
  intros Hr Hq.
  assert (Hn : _dora_weight_norm self = Err ZeroDivisionError).
  { unfold _dora_weight_norm, py_truediv.
    now rewrite (dequantized_weight_plain self Hq), Hr. }
  repeat split.
  - intros Hdis keep x _. now apply forward_rank_zero.
  - exact Hn.
  - unfold init_dora. now rewrite Hn.
Qed.



End Lifecycle.

(** * The merged weight *)

Lemma big_sum_zero (f : nat -> R) : big_sum O f = 0.
Proof. reflexivity. Qed.

Lemma big_sum_plus (f g : nat -> R) (n : nat) :
  big_sum n (fun k => f k + g k) = big_sum n f + big_sum n g.
Proof.
  revert f g. induction n as [| n IH]; intros f g.
  - rewrite !big_sum_zero. lra.
  - rewrite !big_sum_succ, IH. lra.
Qed.

Lemma big_sum_scal (c : R) (f : nat -> R) (n : nat) :
  big_sum n (fun k => c * f k) = c * big_sum n f.
Proof.
  revert f. induction n as [| n IH]; intros f.
  - rewrite !big_sum_zero. lra.
  - rewrite !big_sum_succ, IH. lra.
Qed.

Lemma big_sum_swap (f : nat -> nat -> R) (n m : nat) :
  big_sum n (fun j => big_sum m (fun k => f j k))
  = big_sum m (fun k => big_sum n (fun j => f j k)).
Proof.
  revert f. induction n as [| n IH]; intros f.
  - rewrite big_sum_zero.
    rewrite (big_sum_ext _ (fun _ => 0 * 0) m) by (intros; rewrite big_sum_zero; lra).
    rewrite big_sum_scal. lra.
  - rewrite big_sum_succ, IH.
    rewrite (big_sum_ext (fun k => big_sum (Datatypes.S n) (fun j => f j k))
               (fun k => f O k + big_sum n (fun j => f (Datatypes.S j) k)) m)
      by (intros; apply big_sum_succ).
    now rewrite big_sum_plus.
Qed.

Lemma nth_tabulate (n : nat) (g : nat -> R) (j : nat) :
  (j < n)%nat -> nth j (tabulate n g) 0 = g j.
Proof.
  intros Hj. unfold tabulate.
  rewrite (nth_map_lt g (seq 0 n) j O 0) by (rewrite length_seq; lia).
  now rewrite seq_nth.
Qed.

Lemma nth_matvec (M : matrix) (x : vector) (i : nat) :
  (i < length M)%nat -> nth i (matvec M x) 0 = dot (nth i M []) x.
Proof.
  intros Hi. unfold matvec.
  exact (nth_map_lt (fun row => dot row x) M i [] 0 Hi).
Qed.

(** [(W + s (B @ A)) x = W x + s (B (A x))] on conforming shapes. *)
Lemma merged_matvec (r c k : nat) (s : R) (W A B : matrix) (x : vector) :
  k <> O -> shaped r c W -> shaped k c A -> shaped r k B -> length x = c ->
  matvec (madd W (mscale s (matmul B A))) x
  = vadd (matvec W x) (vscale s (matvec B (matvec A x))).
Proof.
  intros Hk HW HA HB Hx.
  assert (HlenM : length (madd W (mscale s (matmul B A))) = r).
  { unfold madd. rewrite zip_with_length, mscale_length, matmul_length.
    destruct HW, HB. lia. }
  assert (HlenW : length W = r) by apply HW.
  assert (HlenB : length B = r) by apply HB.
  assert (HlenA : length A = k) by apply HA.
  apply (nth_ext _ _ 0 0).
  - unfold vadd, vscale. rewrite zip_with_length, length_map, !matvec_length. lia.
  - intros i Hi. rewrite matvec_length, HlenM in Hi.
    rewrite nth_matvec by lia.
    rewrite (combined_weight_row r c k s W A B i Hk HW HA HB Hi).
    unfold vadd, vscale.
    rewrite (nth_zip_with Rplus _ _ i 0 0 0)
      by (rewrite ?length_map, ?matvec_length; lia).
    rewrite (nth_map_lt (Rmult s) _ i 0 0) by (rewrite matvec_length; lia).
    rewrite !nth_matvec by lia.
    fold (tabulate c (fun j => entry W i j
                               + s * big_sum k (fun l => entry B i l * entry A l j))).
    rewrite (dot_big_sum c) by (rewrite ?tabulate_length; auto).
    rewrite (dot_big_sum c (nth i W []) x) by (auto; apply (shaped_row r c W i HW Hi)).
    rewrite (dot_big_sum k (nth i B []) (matvec A x))
      by (rewrite ?matvec_length; auto; apply (shaped_row r k B i HB Hi)).
    rewrite (big_sum_ext _
               (fun j => entry W i j * nth j x 0
                         + s * big_sum k (fun l => entry B i l * (entry A l j * nth j x 0))) c).
    2:{ intros j Hj. rewrite nth_tabulate by lia.
        rewrite Rmult_plus_distr_r, Rmult_assoc. do 2 f_equal.
        rewrite Rmult_comm, <- big_sum_scal. apply big_sum_ext. intros l _. lra. }
    rewrite big_sum_plus, big_sum_scal, big_sum_swap.
    unfold entry at 1. do 2 f_equal.
    apply big_sum_ext. intros l Hl.
    rewrite big_sum_scal. unfold entry at 1. f_equal.
    rewrite nth_matvec by lia.
    rewrite (dot_big_sum c) by (auto; apply (shaped_row k c A l HA Hl)).
    reflexivity.
Qed.

Lemma vadd_swap (u v w : vector) : vadd (vadd u v) w = vadd (vadd u w) v.
Proof.
  unfold vadd. revert v w.
  induction u as [| a u IH]; intros [| b v] [| c w]; simpl; auto.
  f_equal; [lra | apply IH].
Qed.

Lemma leaves_tmap (f : vector -> vector) (t : Tensor) :
  leaves (tmap f t) = map f (leaves t).
Proof.
  induction t as [v | ts IH] using Tensor_nested_ind; simpl; auto.
  induction IH as [| t ts Ht Hts IHts]; simpl; auto.
  now rewrite map_app, Ht, IHts.
Qed.

Lemma tmap_ext_leaves (f g : vector -> vector) (t : Tensor) :
  Forall (fun v => f v = g v) (leaves t) -> tmap f t = tmap g t.
Proof.
  induction t as [v | ts IH] using Tensor_nested_ind; simpl; intros H.
  - inversion H; subst. congruence.
  - f_equal. induction IH as [| t ts Ht Hts IHts]; simpl in *; auto.
    apply Forall_app in H. destruct H as [H1 H2].
    f_equal; auto.
Qed.

(** Combining two tensors computed leaf by leaf from the same input is
    computing the combination leaf by leaf. *)
Lemma broadcast2_tmap (op : vector -> vector -> vector) (f g : vector -> vector)
    (x : Tensor) :
  broadcast2 op (tmap f x) (tmap g x) = tmap (fun v => op (f v) (g v)) x.
Proof.
  induction x as [v | ts IH] using Tensor_nested_ind; [reflexivity |].
  assert (Hzip : zip_with (broadcast2 op) (map (tmap f) ts) (map (tmap g) ts)
                 = map (tmap (fun v => op (f v) (g v))) ts).
  { induction IH as [| t ts Ht Hts IHts]; simpl; auto. now rewrite Ht, IHts. }
  destruct ts as [| t [| t' ts']].
  - reflexivity.
  - simpl. inversion IH; subst. congruence.
  - simpl. f_equal. exact Hzip.
Qed.

Lemma dropout_inactive_id (d : Dropout) (keep : Mask) (x : Tensor) :
  dropout_inactive d -> Dropout_call d keep x = x.
Proof.
  intros [Ht | Hp]; unfold Dropout_call.
  - now rewrite Ht.
  - destruct (negb (training d)); auto.
    destruct (Req_dec_T (p d) 0); [reflexivity | contradiction].
Qed.

Section Merged.
Context {S : Nf4Substrate}.

Lemma base_output_plain (self : LoRALinear) (x : Tensor) :
  _quantize_base self = false ->
  base_output self x = F_linear x (full_weight self) (bias self).
Proof.
  intros Hq. unfold base_output, full_weight.
  destruct self; simpl in *. subst. reflexivity.
Qed.

(** The perturbation, leaf by leaf, when the dropout module passes its
    input through. *)
Lemma lora_output_inactive (self : LoRALinear) (keep : Mask) (x : Tensor) :
  rank self <> O ->
  Linear_bias (lora_a self) = None ->
  Linear_bias (lora_b self) = None ->
  dropout_inactive (dropout self) ->
  lora_output self keep x
  = Ok (tmap (fun v => vscale (alpha self / INR (rank self))
                         (matvec (Linear_weight (lora_b self))
                            (matvec (Linear_weight (lora_a self)) v))) x).
Proof.
  intros Hr Ha Hb Hd. unfold lora_output.
  rewrite (py_truediv_pos _ _ Hr), (dropout_inactive_id _ _ _ Hd). simpl.
  unfold tscale, Linear_call, F_linear. rewrite Ha, Hb. now rewrite !tmap_tmap.
Qed.

Lemma merged_leaf (self : LoRALinear) (v : vector) :
  rank self <> O -> well_formed self -> length v = in_dim self ->
  vadd (match bias self with
        | Some b => vadd (matvec (full_weight self) v) b
        | None => matvec (full_weight self) v
        end)
       (vscale (alpha self / INR (rank self))
          (matvec (Linear_weight (lora_b self)) (matvec (Linear_weight (lora_a self)) v)))
  = match bias self with
    | Some b => vadd (matvec (merged_weight self) v) b
    | None => matvec (merged_weight self) v
    end.
Proof.
  intros Hr ((HW & HA & HB) & _) Hv. unfold merged_weight.
  rewrite (merged_matvec _ _ _ _ _ _ _ v Hr HW HA HB Hv).
  destruct (bias self) as [b |]; [apply vadd_swap | reflexivity].
Qed.

(** X3. On an enabled layer without DoRA, with a plain base weight,
    parameters of the declared shapes and a dropout module that passes its
    input through (evaluation mode or probability zero), [forward] is the
    affine transform with the merged weight [W + (alpha / rank) (B @ A)] and
    the base bias, on every input whose last dimension is [in_dim]. *)
Theorem forward_is_merged_linear (self : LoRALinear) (keep : Mask) (x : Tensor) :
  disabled self = false ->
  use_dora self = false ->
  _quantize_base self = false ->
  rank self <> O ->
  well_formed self ->
  dropout_inactive (dropout self) ->
  last_dim (in_dim self) x ->
  forward self keep x = Ok (F_linear x (merged_weight self) (bias self)).
Proof.
  intros Hdis Hdora Hq Hr Hwf Hd Hx.
  assert (Hwf' := Hwf). destruct Hwf' as (_ & Ha & Hb & _).
  unfold forward.
  rewrite Hdis, (lora_output_inactive self keep x Hr Ha Hb Hd), Hdora. simpl.
  rewrite (base_output_plain self x Hq). unfold F_linear, tadd.
  rewrite broadcast2_tmap. f_equal.
  apply tmap_ext_leaves. unfold last_dim in Hx.
  eapply Forall_impl; [| exact Hx]. intros v Hv.
  now apply merged_leaf.
Qed.

End Merged.

(** * Shapes of the output and the committed magnitude *)

Lemma broadcast2_vec_r (op : vector -> vector -> vector) (s : vector) (t : Tensor) :
  broadcast2 op t (Vec s) = tmap (fun u => op u s) t.
Proof.
  induction t as [u | l IH] using Tensor_nested_ind; simpl; auto.
  f_equal. induction IH as [| x l Hx Hl IHl]; simpl; auto. now rewrite Hx, IHl.
Qed.

Lemma tmap_id_leaves (f : vector -> vector) (t : Tensor) :
  Forall (fun v => f v = v) (leaves t) -> tmap f t = t.
Proof.
  induction t as [v | ts IH] using Tensor_nested_ind; simpl; intros H.
  - inversion H; subst. congruence.
  - f_equal. induction IH as [| t ts Ht Hts IHts]; simpl in *; auto.
    apply Forall_app in H. destruct H as [H1 H2]. f_equal; auto.
Qed.

Lemma zip_mult_ones (u s : vector) :
  (length u <= length s)%nat -> Forall (fun a => a = 1) s -> zip_with Rmult u s = u.
Proof.
  revert s. induction u as [| a u IH]; intros [| b s] Hlen Hs; simpl in *; auto; try lia.
  inversion Hs; subst. f_equal; [lra | apply IH; auto; lia].
Qed.

Lemma vdiv_self_ones (n : vector) (m : R) :
  0 < m -> Forall (fun a => m <= a) n -> Forall (fun a => a = 1) (vdiv n n).
Proof.
  intros Hm. unfold vdiv. induction 1 as [| a n Ha Hn IH]; simpl; constructor; auto.
  field. lra.
Qed.

Lemma vdiv_self_length (n : vector) : length (vdiv n n) = length n.
Proof. unfold vdiv. rewrite zip_with_length. lia. Qed.

(** Multiplying a batch by a [(1, n)] row of ones that is long enough gives
    the batch back. *)
Lemma tmul_ones (l : list Tensor) (s : vector) :
  Forall (fun u => (length u <= length s)%nat) (leaves (Batch l)) ->
  Forall (fun a => a = 1) s ->
  tmul (Batch l) (view_1_neg1 s) = Batch l.
Proof.
  intros Hlen Hs. unfold tmul, view_1_neg1.
  change (broadcast2 (zip_with Rmult) (Batch l) (Batch [Vec s]))
    with (Batch (map (fun x => broadcast2 (zip_with Rmult) x (Vec s)) l)).
  rewrite (map_ext _ (tmap (fun u => zip_with Rmult u s)))
    by (intros x; apply broadcast2_vec_r).
  change (tmap (fun u => zip_with Rmult u s) (Batch l) = Batch l).
  apply tmap_id_leaves. eapply Forall_impl; [| exact Hlen].
  intros u Hu. now apply zip_mult_ones.
Qed.

Lemma leaves_broadcast2_bound (op : vector -> vector -> vector) (n : nat) (a : Tensor) :
  (forall u v, (length (op u v) <= length u)%nat) ->
  Forall (fun u => (length u <= n)%nat) (leaves a) ->
  forall b, Forall (fun u => (length u <= n)%nat) (leaves (broadcast2 op a b)).
Proof.
  intros Hop.
  induction a as [u | l IH] using Tensor_nested_ind; intros Ha b.
  - simpl. rewrite leaves_tmap. inversion Ha; subst.
    apply Forall_forall. intros w Hw. apply in_map_iff in Hw.
    destruct Hw as [v [<- _]]. specialize (Hop u v). lia.
  - simpl in Ha.
    assert (Hmap : forall y,
               Forall (fun u => (length u <= n)%nat)
                 (flat_map leaves (map (fun x => broadcast2 op x y) l))).
    { intros y. clear b. induction IH as [| x l Hx Hl IHl]; simpl; [constructor |].
      simpl in Ha. apply Forall_app in Ha. destruct Ha as [Ha1 Ha2].
      apply Forall_app. split; auto. }
    assert (Hzip : forall m,
               Forall (fun u => (length u <= n)%nat)
                 (flat_map leaves (zip_with (broadcast2 op) l m))).
    { clear b Hmap. induction IH as [| x l Hx Hl IHl]; intros [| y m]; simpl;
        try constructor.
      simpl in Ha. apply Forall_app in Ha. destruct Ha as [Ha1 Ha2].
      apply Forall_app. split; auto. }
    destruct b as [v | [| y [| y' m']]]; simpl.
    + apply Hmap.
    + apply (Hzip []).
    + apply Hmap.
    + apply (Hzip (y :: y' :: m')).
Qed.

Lemma tadd_batch (l : list Tensor) (b : Tensor) : exists l', tadd (Batch l) b = Batch l'.
Proof.
  unfold tadd. destruct b as [v | [| y [| y' m']]]; simpl; eexists; reflexivity.
Qed.

Lemma vadd_length_le (u v : vector) : (length (vadd u v) <= length u)%nat.
Proof. unfold vadd. rewrite zip_with_length. lia. Qed.

Lemma leaves_F_linear_bound (x : Tensor) (W : matrix) (b : option vector) :
  Forall (fun u => (length u <= length W)%nat) (leaves (F_linear x W b)).
Proof.
  unfold F_linear. rewrite leaves_tmap. apply Forall_forall.
  intros u Hu. apply in_map_iff in Hu. destruct Hu as [v [<- _]].
  destruct b as [b |].
  - etransitivity; [apply vadd_length_le |]. now rewrite matvec_length.
  - now rewrite matvec_length.
Qed.

Lemma same_shape_tadd (a : Tensor) :
  forall b z, same_shape a z -> same_shape b z -> same_shape (tadd a b) z.
Proof.
  unfold tadd.
  induction a as [u | l IH] using Tensor_nested_ind;
    intros [v | m] [w | k] Ha Hb; simpl in Ha, Hb; try contradiction.
  - simpl. unfold vadd. rewrite zip_with_length. lia.
  - assert (Hzip : all2 same_shape (zip_with (broadcast2 vadd) l m) k).
    { revert m k Ha Hb.
      induction IH as [| x l Hx Hl IHl]; intros [| y m] [| z k] Ha Hb;
        simpl in *; try contradiction; auto.
      destruct Ha, Hb. split; auto. }
    destruct m as [| y [| y' m']].
    + exact Hzip.
    + destruct l as [| x [| x' l']]; destruct k as [| z [| z' k']];
        simpl in Ha, Hb; try contradiction; try tauto.
    + exact Hzip.
Qed.

Lemma Dropout_call_vec (d : Dropout) (keep : Mask) (v : vector) :
  exists v', Dropout_call d keep (Vec v) = Vec v'.
Proof.
  unfold Dropout_call. destruct (negb (training d)); [now eexists |].
  destruct (Req_dec_T (p d) 0); [now eexists |].
  destruct (Req_dec_T (p d) 1); simpl; now eexists.
Qed.

Section Dora.
Context {S : Nf4Substrate}.

Lemma weight_norm_length (self : LoRALinear) :
  well_shaped self ->
  length (clamp_min (linalg_norm_dim1 (merged_weight self)) 1e-6) = out_dim self.
Proof.
  intros (HW & _ & HB). unfold merged_weight, linalg_norm_dim1, madd.
  rewrite clamp_min_length, length_map, zip_with_length, mscale_length, matmul_length.
  destruct HW, HB. lia.
Qed.

(** X9. With DoRA on (plain base weight and magnitude, declared shapes,
    dropout passing its input through), every output vector is the affine
    transform of the input vector with the merged weight and the base bias,
    multiplied entry by entry by [lora_m] over the clamped row norms of the
    merged weight: the bias is rescaled together with the product. *)
Theorem forward_dora_is_rescaled_merged (self : LoRALinear) (m : vector)
    (keep : Mask) (x : Tensor) :
  disabled self = false ->
  use_dora self = true ->
  _quantize_base self = false ->
  rank self <> O ->
  well_formed self ->
  dropout_inactive (dropout self) ->
  lora_m self = Some (Dense m) ->
  last_dim (in_dim self) x ->
  exists y,
    forward self keep x = Ok y /\
    leaves y
    = map (fun v =>
             zip_with Rmult
               (match bias self with
                | Some b => vadd (matvec (merged_weight self) v) b
                | None => matvec (merged_weight self) v
                end)
               (vdiv m (clamp_min (linalg_norm_dim1 (merged_weight self)) 1e-6)))
          (leaves x).
Proof.
  intros Hdis Hdora Hq Hr Hwf Hd Hm Hx.
  assert (Hwf' := Hwf). destruct Hwf' as (_ & Ha & Hb & _).
  unfold forward, get_lora_m.
  rewrite Hdis, (lora_output_inactive self keep x Hr Ha Hb Hd), Hdora,
    (dora_weight_norm_plain self Hr Hq), Hm.
  simpl. eexists. split; [reflexivity |].
  rewrite leaves_tmul_row, (base_output_plain self x Hq).
  unfold F_linear, tadd. rewrite broadcast2_tmap, leaves_tmap, map_map.
  unfold last_dim in Hx. clear Hm. induction Hx as [| v vs Hv Hvs IH]; simpl; auto.
  rewrite IH. f_equal. f_equal. now apply merged_leaf.
Qed.

(** X4. Once [init_dora] has run on a DoRA layer with a plain base weight
    and the declared shapes, [forward] on a batched input returns the base
    output plus the perturbation, as the layer without DoRA would: the
    committed magnitude cancels the norm, for any factors A and B and any
    dropout draw. *)
Theorem forward_after_init_dora (self : LoRALinear) (m : Param) (keep : Mask)
    (ts : list Tensor) :
  disabled self = false ->
  use_dora self = true ->
  _quantize_base self = false ->
  rank self <> O ->
  well_shaped self ->
  lora_m self = Some m ->
  exists self' lora_out,
    init_dora self = Ok self' /\
    lora_output self keep (Batch ts) = Ok lora_out /\
    forward self' keep (Batch ts) = Ok (tadd (base_output self (Batch ts)) lora_out).
Proof.
  intros Hdis Hdora Hq Hr Hws Hm.
  set (n := clamp_min (linalg_norm_dim1 (merged_weight self)) 1e-6).
  assert (Hinit : init_dora self = Ok (set_lora_m self (Some (Dense n)))).
  { unfold init_dora, get_lora_m. now rewrite (dora_weight_norm_plain self Hr Hq), Hm. }
  assert (Hlo : exists lo, lora_output self keep (Batch ts) = Ok lo).
  { unfold lora_output. rewrite (py_truediv_pos _ _ Hr). simpl. now eexists. }
  destruct Hlo as [lo Hlo].
  exists (set_lora_m self (Some (Dense n))), lo.
  split; [exact Hinit |]. split; [exact Hlo |].
  unfold forward, get_lora_m.
  change (disabled (set_lora_m self (Some (Dense n)))) with (disabled self).
  change (use_dora (set_lora_m self (Some (Dense n)))) with (use_dora self).
  change (lora_output (set_lora_m self (Some (Dense n))) keep (Batch ts))
    with (lora_output self keep (Batch ts)).
  change (base_output (set_lora_m self (Some (Dense n))) (Batch ts))
    with (base_output self (Batch ts)).
  rewrite dora_weight_norm_set_lora_m.
  rewrite Hdis, Hlo, Hdora, (dora_weight_norm_plain self Hr Hq). simpl. f_equal.
  fold n.
  assert (Hbound : Forall (fun u => (length u <= length (vdiv n n))%nat)
                     (leaves (tadd (base_output self (Batch ts)) lo))).
  { rewrite vdiv_self_length. unfold n. rewrite (weight_norm_length self Hws).
    apply leaves_broadcast2_bound; [apply vadd_length_le |].
    rewrite (base_output_plain self _ Hq).
    destruct Hws as ((HlenW & _) & _). rewrite <- HlenW.
    apply leaves_F_linear_bound. }
  rewrite (base_output_plain self _ Hq) in *.
  destruct (tadd_batch (map (tmap (fun v => match bias self with
                                            | Some b => vadd (matvec (full_weight self) v) b
                                            | None => matvec (full_weight self) v
                                            end)) ts) lo) as [l' Hl'].
  change (F_linear (Batch ts) (full_weight self) (bias self))
    with (Batch (map (tmap (fun v => match bias self with
                                     | Some b => vadd (matvec (full_weight self) v) b
                                     | None => matvec (full_weight self) v
                                     end)) ts)) in *.
  rewrite Hl' in *.
  apply tmul_ones; [exact Hbound |].
  apply (vdiv_self_ones n 1e-6); [lra | apply clamp_min_floor].
Qed.

(** X8. With DoRA on and a plain base weight, a bare vector as input comes
    back under one more dimension, of size 1: the sum of base output and
    perturbation is a vector, and multiplying it by the scale viewed as
    [(1, n)] yields a [(1, n)] tensor. *)
Theorem forward_dora_vector_gains_dimension (self : LoRALinear) (m : Param)
    (keep : Mask) (v : vector) :
  disabled self = false ->
  use_dora self = true ->
  _quantize_base self = false ->
  rank self <> O ->
  lora_m self = Some m ->
  exists out lora_out weight_norm,
    base_output self (Vec v) = Vec out /\
    lora_output self keep (Vec v) = Ok (Vec lora_out) /\
    _dora_weight_norm self = Ok weight_norm /\
    forward self keep (Vec v)
    = Ok (Batch [Vec (zip_with Rmult (vadd out lora_out) (truediv m weight_norm))]).
Proof.
  intros Hdis Hdora Hq Hr Hm.
  destruct (Dropout_call_vec (dropout self) keep v) as [v' Hv'].
  unfold forward, lora_output, get_lora_m.
  rewrite Hdis, Hdora, Hm, (py_truediv_pos _ _ Hr), (dora_weight_norm_plain self Hr Hq),
    (base_output_plain self _ Hq), Hv'.
  simpl. do 3 eexists. repeat split; reflexivity.
Qed.

(** X10. Without DoRA, on a layer with a plain base weight and the declared
    shapes, [forward] on an input whose last dimension is [in_dim] returns,
    in every dropout mode and for every draw, enabled or disabled, a tensor
    with the batch dimensions of the input and last dimension [out_dim]. *)
Theorem forward_output_shape (self : LoRALinear) (keep : Mask) (x : Tensor) :
  use_dora self = false ->
  _quantize_base self = false ->
  rank self <> O ->
  well_formed self ->
  last_dim (in_dim self) x ->
  exists y, forward self keep x = Ok y /\ same_shape y (tzeros (out_dim self) x).
Proof.
  intros Hdora Hq Hr ((HW & HA & HB) & Ha & Hb & Hbias) _.
  assert (Hout : same_shape (base_output self x) (tzeros (out_dim self) x)).
  { rewrite (base_output_plain self x Hq).
    apply same_shape_F_linear; [apply HW |].
    destruct (bias self); auto. }
  unfold forward. destruct (disabled self).
  - eexists. split; [reflexivity | exact Hout].
  - unfold lora_output. rewrite (py_truediv_pos _ _ Hr), Hdora. simpl.
    eexists. split; [reflexivity |].
    apply same_shape_tadd; [exact Hout |].
    unfold tscale, Linear_call, F_linear. rewrite Ha, Hb, !tmap_tmap.
    rewrite <- (tzeros_dropout (out_dim self) (dropout self) keep x).
    unfold tzeros. apply same_shape_tmap. intros v.
    unfold vscale. rewrite length_map, matvec_length, repeat_length. apply HB.
Qed.

End Dora.

(** * The further theorems at concrete layers *)

Lemma example_well_formed (B : matrix) :
  shaped 2 1 B -> well_formed (example_layer B).
Proof.
  intros HB. unfold well_formed, well_shaped, shaped. simpl.
  repeat split; auto; try apply HB; repeat constructor.
Defined.

Lemma dora_example_well_formed : well_formed dora_example_layer.
Proof.
  unfold well_formed, well_shaped, shaped. simpl. repeat split; repeat constructor.
Defined.

Lemma ones_column_shaped : shaped 2 1 [[1]; [1]].
Proof. unfold shaped. simpl. split; repeat constructor. Defined.

Lemma construct_fresh_state_witness :
  exists self,
    construct half_draws 4 2 1 1 0 true true false = (registered_names true, Ok self) /\
    in_dim self = 4%nat /\ out_dim self = 2%nat /\ rank self = 1%nat /\ alpha self = 1 /\
    use_dora self = true /\ use_bias self = true /\ _quantize_base self = false /\
    disabled self = false /\
    dropout self = {| p := 0; training := true |} /\
    shaped 1 4 (Linear_weight (lora_a self)) /\
    shaped 2 1 (Linear_weight (lora_b self)) /\
    Linear_bias (lora_a self) = None /\
    Linear_bias (lora_b self) = None /\
    shaped 2 4 (full_weight self) /\
    match bias self with
    | Some b => true = true /\ length b = 2%nat
    | None => true = false
    end /\
    lora_m self = Some (Dense (repeat 1 2)).
Proof.
  apply (construct_fresh_state half_draws 4 2 1 1 0 true true). lra.
Defined.

Lemma adapter_params_registered_witness :
  exists reg self,
    construct half_draws 4 2 1 1 0 true true false = (reg, Ok self) /\
    incl (adapter_params self) reg /\
    (forall name, In name reg ->
       In name (adapter_params self) \/ name = "weight"%string \/ name = "bias"%string).
Proof.
  destruct (adapter_params_registered half_draws 4 2 1 1 0 true true false) as [Hex Hall].
  destruct (Hex eq_refl ltac:(lra)) as (reg & self & H).
  exists reg, self. split; [exact H | exact (Hall reg self H)].
Defined.

Lemma forward_is_merged_linear_witness :
  forward (example_layer [[1]; [1]]) keep_all (Vec [1; 1; 1; 1])
  = Ok (F_linear (Vec [1; 1; 1; 1]) (merged_weight (example_layer [[1]; [1]])) None).
Proof.
  apply (forward_is_merged_linear (example_layer [[1]; [1]]) keep_all (Vec [1; 1; 1; 1]));
    [reflexivity | reflexivity | reflexivity | discriminate
    | exact (example_well_formed _ ones_column_shaped)
    | right; reflexivity
    | repeat constructor].
Defined.

Lemma forward_after_init_dora_witness :
  exists self' lora_out,
    init_dora dora_example_layer = Ok self' /\
    lora_output dora_example_layer keep_all (Batch [Vec [1; 1; 1; 1]]) = Ok lora_out /\
    forward self' keep_all (Batch [Vec [1; 1; 1; 1]])
    = Ok (tadd (base_output dora_example_layer (Batch [Vec [1; 1; 1; 1]])) lora_out).
Proof.
  apply (forward_after_init_dora dora_example_layer (Dense [1; 1]) keep_all
           [Vec [1; 1; 1; 1]]);
    [reflexivity | reflexivity | reflexivity | discriminate
    | exact dora_example_well_shaped | reflexivity].
Defined.

Lemma init_dora_idempotent_witness :
  exists self', init_dora dora_example_layer = Ok self' /\ init_dora self' = Ok self'.
Proof.
  apply (init_dora_idempotent dora_example_layer (Dense [1; 1]));
    [reflexivity | reflexivity | discriminate].
Defined.

Lemma rank_zero_raises_witness :
  (disabled rank_zero_layer = false ->
   forall keep x, last_dim 4 x ->
                  forward rank_zero_layer keep x = Err ZeroDivisionError) /\
  _dora_weight_norm rank_zero_layer = Err ZeroDivisionError /\
  init_dora rank_zero_layer = Err ZeroDivisionError /\
  (forall keep x, last_dim 4 x ->
                  forward (set_disabled rank_zero_layer true) keep x
                  = Ok (base_output rank_zero_layer x)).
Proof.
  apply (rank_zero_raises rank_zero_layer); reflexivity.
Defined.


Lemma forward_dora_vector_gains_dimension_witness :
  exists out lora_out weight_norm,
    base_output dora_example_layer (Vec [1; 1; 1; 1]) = Vec out /\
    lora_output dora_example_layer keep_all (Vec [1; 1; 1; 1]) = Ok (Vec lora_out) /\
    _dora_weight_norm dora_example_layer = Ok weight_norm /\
    forward dora_example_layer keep_all (Vec [1; 1; 1; 1])
    = Ok (Batch [Vec (zip_with Rmult (vadd out lora_out)
                        (truediv (Dense [1; 1]) weight_norm))]).
Proof.
  apply (forward_dora_vector_gains_dimension dora_example_layer (Dense [1; 1]) keep_all
           [1; 1; 1; 1]);
    [reflexivity | reflexivity | reflexivity | discriminate | reflexivity].
Defined.

Lemma forward_dora_is_rescaled_merged_witness :
  exists y,
    forward dora_example_layer keep_all (Batch [Vec [1; 1; 1; 1]]) = Ok y /\
    leaves y
    = map (fun v =>
             zip_with Rmult (matvec (merged_weight dora_example_layer) v)
               (vdiv [1; 1]
                  (clamp_min (linalg_norm_dim1 (merged_weight dora_example_layer)) 1e-6)))
          [[1; 1; 1; 1]].
Proof.
  apply (forward_dora_is_rescaled_merged dora_example_layer [1; 1] keep_all
           (Batch [Vec [1; 1; 1; 1]]));
    [reflexivity | reflexivity | reflexivity | discriminate
    | exact dora_example_well_formed | right; reflexivity | reflexivity
    | repeat constructor].
Defined.

Lemma forward_output_shape_witness :
  exists y,
    forward (example_layer [[1]; [1]]) keep_all (Batch [Vec [1; 1; 1; 1]]) = Ok y /\
    same_shape y (tzeros 2 (Batch [Vec [1; 1; 1; 1]])).
Proof.
  apply (forward_output_shape (example_layer [[1]; [1]]) keep_all
           (Batch [Vec [1; 1; 1; 1]]));
    [reflexivity | reflexivity | discriminate
    | exact (example_well_formed _ ones_column_shaped)
    | repeat constructor].
Defined.
